(** * Atlas kit driver (MicroNotebook/atlas-micropython)

    A shallow embedding of the [Atlas] class of [atlas.py] and of
    [starter/atlas.py]: the MAX7219 seven-segment display writes, the
    increment / decrement logic, the button debouncer, the beeper timers
    and the 24 hour clock refresh.

    The object's attributes become a record [Atlas]; a method is a state
    transformer that either returns or raises, and a raised exception
    carries the state reached so far (Python rolls nothing back).  Every
    frame handed to [_spi.write] is appended to [bus], so the order of
    the register writes is observable. *)

From Stdlib Require Import ZArith QArith Lia List Bool.
From Stdlib Require Import Ascii String DecimalString.
From stdpp Require Import base gmap strings list.

Local Open Scope Z_scope.

(** ** Module constants *)

Definition _NOOP : Z := 0x0.
Definition _DIGIT0 : Z := 0x1.
Definition _DIGIT1 : Z := 0x2.
Definition _DIGIT2 : Z := 0x3.
Definition _DIGIT3 : Z := 0x4.
Definition _DIGIT4 : Z := 0x5.
Definition _DIGIT5 : Z := 0x6.
Definition _DECODE_MODE : Z := 0x9.

Definition _DIGIT_DICT : gmap Z Z :=
  list_to_map
    [ (0, _DIGIT0); (1, _DIGIT1); (2, _DIGIT2);
      (3, _DIGIT3); (4, _DIGIT4); (5, _DIGIT5) ].

Definition _DP : Z := 0x80.

Definition _MAX_VALUE_DEC : Z := 999999.
Definition _MIN_VALUE_DEC : Z := -99999.
Definition _MAX_VALUE_HEX : Z := 0xFFFFFF.
Definition _MIN_VALUE_HEX : Z := 0x000000.
Definition _MAX_VALUE_DP : Z := 63.   (* 0b111111 *)
Definition _MIN_VALUE_DP : Z := 0.    (* 0b000000 *)

Definition _DEBOUNCE_SAMPLES : nat := 32.

Definition _INTENSITY : Z := 0xA.
Definition _SCAN_LIMIT : Z := 0xB.
Definition _SHUTDOWN : Z := 0xC.
Definition _DISPLAY_TEST : Z := 0xF.

Definition _HEX_TO_SEG : gmap Z Z :=
  list_to_map
    [ (0x0, 126); (0x1, 48);  (0x2, 109); (0x3, 121);
      (0x4, 51);  (0x5, 91);  (0x6, 95);  (0x7, 112);
      (0x8, 127); (0x9, 123); (0xA, 119); (0xB, 31);
      (0xC, 78);  (0xD, 61);  (0xE, 79);  (0xF, 71) ].

(** ** Hardware timers

    [Timer(id)] names hardware timer [id]; [init] programs it and
    [deinit] stops it, so the armed timers form a finite map from the
    timer id to its configuration. *)

Inductive timer_mode := ONE_SHOT | PERIODIC.

Inductive timer_rate :=
  | Freq (hz : Q)       (* [init(freq=...)] *)
  | Period (ms : Z).    (* [init(period=...)] *)

(** The callables the driver installs as timer callbacks. *)
Inductive callback :=
  | CbBuzzer          (* atlas.py: [self.buzzer_callback] *)
  | CbBeeper          (* starter: [self.beeper_callback] *)
  | CbBeeperDeinit    (* starter: [lambda _: self.beeper_timer.deinit()] *)
  | CbClock.          (* starter: [self.clock_timer_callback] *)

Record timer_cfg := TimerCfg {
  t_rate : timer_rate;
  t_mode : timer_mode;
  t_callback : callback
}.

(** The tuple returned by [rtc.datetime()]. *)
Record datetime := DateTime {
  dt_year : Z; dt_month : Z; dt_day : Z; dt_weekday : Z;
  dt_hours : Z; dt_minutes : Z; dt_seconds : Z; dt_subseconds : Z
}.

(** ** The driver object *)

Record Atlas := MkAtlas {
  _cs : bool;                      (* chip select pin level *)
  bus : list (Z * Z);              (* [command, data] frames sent, oldest first *)
  red_led : bool;
  green_led : bool;
  blue_led : bool;
  beeper : bool;                   (* pin 16: [buzzer] in atlas.py, [beeper] in starter *)
  current_num : option Z;          (* [None] while the display is blank *)
  current_dp : Z;
  timers : gmap Z timer_cfg;       (* armed hardware timers *)
  rtc : datetime
}.

Definition set_cs (v : bool) (s : Atlas) : Atlas :=
  MkAtlas v (bus s) (red_led s) (green_led s) (blue_led s) (beeper s)
          (current_num s) (current_dp s) (timers s) (rtc s).
Definition set_bus (b : list (Z * Z)) (s : Atlas) : Atlas :=
  MkAtlas (_cs s) b (red_led s) (green_led s) (blue_led s) (beeper s)
          (current_num s) (current_dp s) (timers s) (rtc s).
Definition set_red_led (v : bool) (s : Atlas) : Atlas :=
  MkAtlas (_cs s) (bus s) v (green_led s) (blue_led s) (beeper s)
          (current_num s) (current_dp s) (timers s) (rtc s).
Definition set_green_led (v : bool) (s : Atlas) : Atlas :=
  MkAtlas (_cs s) (bus s) (red_led s) v (blue_led s) (beeper s)
          (current_num s) (current_dp s) (timers s) (rtc s).
Definition set_blue_led (v : bool) (s : Atlas) : Atlas :=
  MkAtlas (_cs s) (bus s) (red_led s) (green_led s) v (beeper s)
          (current_num s) (current_dp s) (timers s) (rtc s).
Definition set_beeper (v : bool) (s : Atlas) : Atlas :=
  MkAtlas (_cs s) (bus s) (red_led s) (green_led s) (blue_led s) v
          (current_num s) (current_dp s) (timers s) (rtc s).
Definition set_current_num (n : option Z) (s : Atlas) : Atlas :=
  MkAtlas (_cs s) (bus s) (red_led s) (green_led s) (blue_led s) (beeper s)
          n (current_dp s) (timers s) (rtc s).
Definition set_current_dp (dp : Z) (s : Atlas) : Atlas :=
  MkAtlas (_cs s) (bus s) (red_led s) (green_led s) (blue_led s) (beeper s)
          (current_num s) dp (timers s) (rtc s).
Definition set_timers (t : gmap Z timer_cfg) (s : Atlas) : Atlas :=
  MkAtlas (_cs s) (bus s) (red_led s) (green_led s) (blue_led s) (beeper s)
          (current_num s) (current_dp s) t (rtc s).
Definition set_rtc (d : datetime) (s : Atlas) : Atlas :=
  MkAtlas (_cs s) (bus s) (red_led s) (green_led s) (blue_led s) (beeper s)
          (current_num s) (current_dp s) (timers s) d.

(** ** Methods as state transformers that may raise *)

Inductive exn :=
  | ValueError (msg : string)
  | KeyError (key : Z)
  | TypeError (msg : string).

Inductive outcome (A : Type) :=
  | Return (a : A) (s : Atlas)
  | Raise (e : exn) (s : Atlas).
Arguments Return {A} a s.
Arguments Raise {A} e s.

Definition M (A : Type) : Type := Atlas -> outcome A.

#[global] Instance M_ret : MRet M := fun A a s => Return a s.
#[global] Instance M_bind : MBind M := fun A B k m s =>
  match m s with
  | Return a s' => k a s'
  | Raise e s' => Raise e s'
  end.

Definition raise {A} (e : exn) : M A := fun s => Raise e s.
Definition get : M Atlas := fun s => Return s s.
Definition modify (f : Atlas -> Atlas) : M unit := fun s => Return tt (f s).

(** The state a call ends in, whether it returned or raised. *)
Definition final_state {A} (o : outcome A) : Atlas :=
  match o with Return _ s => s | Raise _ s => s end.

Definition raised {A} (o : outcome A) : bool :=
  match o with Return _ _ => false | Raise _ _ => true end.

(** Truth value of an integer in a condition. *)
Definition truthy (z : Z) : bool := negb (z =? 0).

(** [d[k]] on a dict with integer keys. *)
Definition getitem (d : gmap Z Z) (k : Z) : M Z :=
  match d !! k with
  | Some v => mret v
  | None => raise (KeyError k)
  end.

(** ** Code shared by atlas.py and starter/atlas.py *)

(** [_register(command, data)]: one two-byte frame between chip-select
    low and chip-select high. *)
Definition _register (command data : Z) : M unit :=
  modify (set_cs false) ;;
  modify (fun s => set_bus (bus s ++ [(command, data)]) s) ;;
  modify (set_cs true).

Definition display_brightness (value : Z) : M unit :=
  if (0 <=? value) && (value <=? 15)
  then _register _INTENSITY value
  else raise (ValueError "Brightness out of range").

(** [for i in range(...)] with a body that only depends on [i]. *)
Fixpoint for_range (idxs : list Z) (body : Z -> M unit) : M unit :=
  match idxs with
  | [] => mret tt
  | i :: rest => body i ;; for_range rest body
  end.

Definition range (n : nat) : list Z := map Z.of_nat (seq 0 n).

Definition display_clear : M unit :=
  _register _DECODE_MODE 0xFF ;;
  for_range (range 6) (fun i =>
    d ← getitem _DIGIT_DICT i; _register d 0x0F) ;;
  modify (set_current_num None).

(** The digit loop of [write_num]; [value] and [dp] are the loop-carried
    locals. *)
Fixpoint write_num_loop (idxs : list Z) (value dp : Z) : M unit :=
  match idxs with
  | [] => mret tt
  | i :: rest =>
      let current_value := value mod 10 in
      (if truthy (Z.land dp 1)
       then d ← getitem _DIGIT_DICT i; _register d (Z.lor current_value _DP)
       else d ← getitem _DIGIT_DICT i; _register d current_value) ;;
      write_num_loop rest (value / 10) (Z.shiftr dp 1)
  end.

Definition write_num (value dp : Z) : M unit :=
  _register _DECODE_MODE 0xFF ;;
  if ((0 <=? value) && (value <=? _MAX_VALUE_DEC))
     && ((_MIN_VALUE_DP <=? dp) && (dp <=? _MAX_VALUE_DP))
  then
    modify (set_current_num (Some value)) ;;
    modify (set_current_dp dp) ;;
    write_num_loop (range 6) value dp
  else if ((0 >? value) && (value >=? _MIN_VALUE_DEC))
          && ((_MIN_VALUE_DP <=? dp) && (dp <=? _MAX_VALUE_DP))
  then
    modify (set_current_num (Some value)) ;;
    modify (set_current_dp dp) ;;
    let value := - value in
    _register _DIGIT5 0xA ;;
    write_num_loop (range 5) value dp
  else raise (ValueError "Value out of range").

(** A GPIO output pin of the object: how to read and how to drive it. *)
Record pin := Pin {
  pin_value : Atlas -> bool;
  pin_set : bool -> Atlas -> Atlas
}.

Definition red_led_pin : pin := Pin red_led set_red_led.
Definition green_led_pin : pin := Pin green_led set_green_led.
Definition blue_led_pin : pin := Pin blue_led set_blue_led.
Definition beeper_pin : pin := Pin beeper set_beeper.

(** [pin.value(not (pin.value()))]: [toggle_pin] in atlas.py,
    [toggle_led] in starter. *)
Definition toggle_pin (p : pin) : M unit :=
  modify (fun s => pin_set p (negb (pin_value p s)) s).

(** [timer.init(...)] and [timer.deinit()] on hardware timer [id]. *)
Definition timer_init (id : Z) (cfg : timer_cfg) : M unit :=
  modify (fun s => set_timers (<[id := cfg]> (timers s)) s).
Definition timer_deinit (id : Z) : M unit :=
  modify (fun s => set_timers (delete id (timers s)) s).

(** [self.current_num] used as a number. *)
Definition current_num_value : M Z := fun s =>
  match current_num s with
  | Some n => Return n s
  | None => Raise (TypeError "unsupported operand type(s): 'NoneType' and 'int'") s
  end.

(** *** The debouncer

    An input pin is read from the outside world: [button k] is the level
    returned by the [k]-th call of [button.value()] (counting from 0).
    [_debounce] returns its result together with the number of reads it
    made. *)

Fixpoint _debounce_loop (iters : nat) (button : nat -> bool) (k : nat)
    (flag : bool) : bool * nat :=
  match iters with
  | O => (negb flag, k)
  | S iters' =>
      let flag := button k in
      if button (S k)
      then (negb flag, S (S k))
      else _debounce_loop iters' button (S (S k)) flag
  end.

Definition _debounce (button : nat -> bool) : bool * nat :=
  _debounce_loop _DEBOUNCE_SAMPLES button 0%nat false.

(** ** atlas.py *)

Module Kit.

Definition __init__ : M unit :=
  modify (set_red_led false) ;;
  modify (set_green_led false) ;;
  modify (set_blue_led false) ;;
  modify (set_beeper true) ;;
  timer_deinit 2 ;;
  modify (set_cs true) ;;
  _register _SHUTDOWN 0 ;;
  _register _DISPLAY_TEST 0 ;;
  _register _SCAN_LIMIT 7 ;;
  _register _DECODE_MODE 0 ;;
  _register _SHUTDOWN 1 ;;
  display_clear ;;
  display_brightness 5 ;;
  modify (set_current_num None) ;;
  modify (set_current_dp 0).

Definition buzzer_callback : M unit := toggle_pin beeper_pin.

Definition play_note (freq : Q) : M unit :=
  timer_init 2 (TimerCfg (Freq freq) PERIODIC CbBuzzer).

Definition stop_note : M unit :=
  timer_deinit 2 ;;
  modify (set_beeper true).

Definition increment_num : M unit :=
  s ← get;
  match current_num s with
  | None => raise (ValueError "No value to increment")
  | Some n =>
      (if n + 1 >? _MAX_VALUE_DEC
       then modify (set_current_num (Some (-1)))
       else mret tt) ;;
      n' ← current_num_value;
      s' ← get;
      write_num (n' + 1) (current_dp s')
  end.

Definition decrement_num : M unit :=
  s ← get;
  match current_num s with
  | None => raise (ValueError "No value to decrement")
  | Some n =>
      (if n - 1 <? _MIN_VALUE_DEC
       then modify (set_current_num (Some 1))
       else mret tt) ;;
      n' ← current_num_value;
      s' ← get;
      write_num (n' - 1) (current_dp s')
  end.

Definition mode_button_callback (mode_button : nat -> bool) : M unit :=
  if fst (_debounce mode_button)
  then toggle_pin red_led_pin ;; toggle_pin green_led_pin ;; toggle_pin blue_led_pin
  else mret tt.

Definition incr_button_callback (incr_button : nat -> bool) : M unit :=
  if fst (_debounce incr_button) then increment_num else mret tt.

Definition decr_button_callback (decr_button : nat -> bool) : M unit :=
  if fst (_debounce decr_button) then decrement_num else mret tt.

End Kit.

(** ** starter/atlas.py *)

Module Starter.

Definition __init__ : M unit :=
  modify (set_cs true) ;;
  modify (set_current_num None) ;;
  modify (set_current_dp 0) ;;
  _register _SHUTDOWN 0 ;;
  _register _SCAN_LIMIT 7 ;;
  _register _DECODE_MODE 0xFF ;;
  _register _INTENSITY 0xa ;;
  _register _SHUTDOWN 1 ;;
  display_clear ;;
  modify (set_red_led false) ;;
  modify (set_green_led false) ;;
  modify (set_blue_led false).

Definition set_time (hour minute second : Z) : M unit :=
  modify (set_rtc (DateTime 2019 1 1 0 hour minute second 0)).

(** [ntptime.settime()] sets the clock from the network; the time it
    fetched is the argument [network_time]. *)
Definition set_time_ntp (network_time : datetime) (utc_offset : Z) : M unit :=
  modify (set_rtc network_time) ;;
  s ← get;
  let d := rtc s in
  let hour := dt_hours d + utc_offset in
  let hour := if hour <? 0 then 24 + hour
              else if hour >? 23 then hour - 24
              else hour in
  let d := DateTime (dt_year d) (dt_month d) (dt_day d) (dt_weekday d)
                    hour (dt_minutes d) (dt_seconds d) (dt_subseconds d) in
  modify (set_rtc d).

Definition start_clock24 : M unit :=
  timer_init 1 (TimerCfg (Period 1000) PERIODIC CbClock).

Fixpoint write_hex_loop (idxs : list Z) (value : Z) : M unit :=
  match idxs with
  | [] => mret tt
  | i :: rest =>
      d ← getitem _DIGIT_DICT i;
      seg ← getitem _HEX_TO_SEG (value mod 16);
      _register d seg ;;
      write_hex_loop rest (value / 16)
  end.

Definition write_hex (value : Z) : M unit :=
  _register _DECODE_MODE 0x0 ;;
  if (0x0 <=? value) && (value <=? _MAX_VALUE_HEX)
  then
    modify (set_current_num (Some value)) ;;
    write_hex_loop (range 6) value
  else raise (ValueError "Value out of range").

Definition toggle_led (led : pin) : M unit := toggle_pin led.

(** [duration_timer = Timer(0)]; the beeper timer is [Timer(2)]. *)
Definition play_note (freq : Q) (duration : Z) : M unit :=
  timer_init 2 (TimerCfg (Freq freq) PERIODIC CbBeeper) ;;
  timer_init 0 (TimerCfg (Period duration) ONE_SHOT CbBeeperDeinit).

Fixpoint play_song (notes : list (Q * Z)) : M unit :=
  match notes with
  | [] => mret tt
  | note :: rest => play_note (fst note) (snd note) ;; play_song rest
  end.

Definition increment_num (hex : bool) : M unit :=
  s ← get;
  match current_num s with
  | None => raise (ValueError "No value to increment")
  | Some n =>
      if hex then
        (if n + 1 >? _MAX_VALUE_HEX
         then modify (set_current_num (Some (-1)))
         else mret tt) ;;
        n' ← current_num_value;
        write_hex (n' + 1)
      else
        (if n + 1 >? _MAX_VALUE_DEC
         then modify (set_current_num (Some (-1)))
         else mret tt) ;;
        n' ← current_num_value;
        s' ← get;
        write_num (n' + 1) (current_dp s')
  end.

Definition decrement_num (hex : bool) : M unit :=
  s ← get;
  match current_num s with
  | None => raise (ValueError "No value to decrement")
  | Some n =>
      if hex then
        (if n - 1 <? _MIN_VALUE_HEX
         then modify (set_current_num (Some 1))
         else mret tt) ;;
        n' ← current_num_value;
        write_hex (n' - 1)
      else
        (if n - 1 <? _MIN_VALUE_DEC
         then modify (set_current_num (Some 1))
         else mret tt) ;;
        n' ← current_num_value;
        s' ← get;
        write_num (n' - 1) (current_dp s')
  end.

Definition beeper_callback : M unit := toggle_led beeper_pin.

(** The body of [lambda _: self.beeper_timer.deinit()]. *)
Definition beeper_deinit_lambda : M unit := timer_deinit 2.

Definition mode_button_callback (mode_button : nat -> bool) : M unit :=
  if fst (_debounce mode_button) then toggle_led red_led_pin else mret tt.

Definition incr_button_callback (incr_button : nat -> bool) : M unit :=
  if fst (_debounce incr_button) then toggle_led green_led_pin else mret tt.

Definition decr_button_callback (decr_button : nat -> bool) : M unit :=
  if fst (_debounce decr_button) then toggle_led blue_led_pin else mret tt.

(** [str(n)] and [int(s)] on decimal numerals. *)
Definition str (n : Z) : string := NilZero.string_of_int (Z.to_int n).

Definition int (s : string) : M Z :=
  match NilZero.int_of_string s with
  | Some d => mret (Z.of_int d)
  | None => raise (ValueError "invalid literal for int() with base 10")
  end.

(** The three fields of the clock string, built the way
    [_update_clock24] does. *)
Definition two_digits (field : Z) : string :=
  (if field <? 10 then "0" else "") +:+ str field.

Definition time_str (current_time : datetime) : string :=
  let hours := dt_hours current_time in
  let minutes := dt_minutes current_time in
  let seconds := dt_seconds current_time in
  let time_str := "" in
  let time_str := time_str +:+ two_digits hours in
  let time_str := time_str +:+ two_digits minutes in
  let time_str := time_str +:+ two_digits seconds in
  time_str.

Definition _update_clock24 : M unit :=
  s ← get;
  let current_time := rtc s in
  n ← int (time_str current_time);
  write_num n 20.   (* 0b010100 *)

Definition clock_timer_callback : M unit := _update_clock24.

Definition timer_callback : M unit := increment_num false.

End Starter.

(** ** Timer interrupts

    A timer interrupt is a transition of its own: [fire id] runs the
    callback of hardware timer [id] if it is armed, and a one-shot timer
    is disarmed by its firing.  Python code that does not wait runs to
    its end between two such transitions. *)

Definition run_callback (cb : callback) : M unit :=
  match cb with
  | CbBuzzer => Kit.buzzer_callback
  | CbBeeper => Starter.beeper_callback
  | CbBeeperDeinit => Starter.beeper_deinit_lambda
  | CbClock => Starter.clock_timer_callback
  end.

Definition fire (id : Z) : M unit := fun s =>
  match timers s !! id with
  | None => Return tt s
  | Some cfg =>
      match t_mode cfg with
      | ONE_SHOT => (timer_deinit id ;; run_callback (t_callback cfg)) s
      | PERIODIC => run_callback (t_callback cfg) s
      end
  end.

(** ** What a run of register writes leaves behind *)

(** [sent frames s]: the state after the frames [frames] went over the
    bus, each through [_register]. *)
Definition sent (frames : list (Z * Z)) (s : Atlas) : Atlas :=
  set_cs true (set_bus (bus s ++ frames) s).

(** The data nibble and the decimal-point flag of a digit frame, as the
    MAX7219 decodes them in code-B mode. *)
Definition digit_field (fr : Z * Z) : Z := Z.land (snd fr) 0x0F.
Definition dp_flag (fr : Z * Z) : bool := Z.testbit (snd fr) 7.

(** The number shown by digit frames listed from the least significant
    position. *)
Definition read_back (frames : list (Z * Z)) : Z :=
  fold_right (fun fr acc => digit_field fr + 10 * acc) 0 frames.

(** The frames of [write_num_loop], with the loop-carried locals. *)
Fixpoint digit_frames (idxs : list Z) (value dp : Z) : list (Z * Z) :=
  match idxs with
  | [] => []
  | i :: rest =>
      (i + 1, if truthy (Z.land dp 1)
              then Z.lor (value mod 10) _DP
              else value mod 10)
      :: digit_frames rest (value / 10) (Z.shiftr dp 1)
  end.

(** The frame of digit position [i] in closed form. *)
Definition digit_frame (value dp : Z) (i : Z) : Z * Z :=
  (i + 1, if Z.testbit dp i
          then Z.lor ((value / 10 ^ i) mod 10) _DP
          else (value / 10 ^ i) mod 10).

(** The frames of [write_hex_loop], and the frame of one position. *)
Fixpoint hex_frames (idxs : list Z) (value : Z) : list (Z * Z) :=
  match idxs with
  | [] => []
  | i :: rest =>
      (i + 1, default 0 (_HEX_TO_SEG !! (value mod 16)))
      :: hex_frames rest (value / 16)
  end.

(** The invariant of the stored decimal-point mask. *)
Definition dp_ok (s : Atlas) : Prop :=
  _MIN_VALUE_DP <= current_dp s <= _MAX_VALUE_DP.

(** The state in which every pin is low, no timer is armed and the
    display is blank. *)
Definition blank : Atlas :=
  MkAtlas true [] false false false false None 0 ∅
          (DateTime 2019 1 1 0 0 0 0 0).

(** ** Definitions the statements use *)

(** The frames that show 0: six zero digits with the stored decimal
    points, and six times the segment pattern of the hexadecimal 0. *)
Definition zero_dec_frames (dp : Z) : list (Z * Z) :=
  (_DECODE_MODE, 0xFF) :: map (digit_frame 0 dp) (range 6).

Definition zero_hex_frames : list (Z * Z) :=
  [(_DECODE_MODE, 0x0); (_DIGIT0, 126); (_DIGIT1, 126); (_DIGIT2, 126);
   (_DIGIT3, 126); (_DIGIT4, 126); (_DIGIT5, 126)].

(** The character of a decimal digit. *)
Definition digit_char (d : Z) : ascii := ascii_of_nat (48 + Z.to_nat d).

(** One clock sample checked by evaluation: every field prints as its
    tens digit followed by its units digit, and the six characters parse
    to [hours * 10000 + minutes * 100 + seconds]. *)
Definition padded (field : Z) : bool :=
  String.eqb (Starter.two_digits field)
             (String (digit_char (field / 10))
                (String (digit_char (field mod 10)) EmptyString)).

Definition clock_sample_ok (hours minutes seconds : Z) : bool :=
  match NilZero.int_of_string
          (Starter.time_str (DateTime 0 0 0 0 hours minutes seconds 0)) with
  | Some d => Z.of_int d =? hours * 10000 + minutes * 100 + seconds
  | None => false
  end.

(** The configurations [play_note] programs into timers 2 and 0. *)
Definition tone_cfg (freq : Q) : timer_cfg := TimerCfg (Freq freq) PERIODIC CbBeeper.
Definition duration_cfg (duration : Z) : timer_cfg :=
  TimerCfg (Period duration) ONE_SHOT CbBeeperDeinit.

(** The last note of a song that starts with [note]. *)
Fixpoint last_note (note : Q * Z) (notes : list (Q * Z)) : Q * Z :=
  match notes with
  | [] => note
  | next :: rest => last_note next rest
  end.

(** The debouncer as the specification words it: one sample per step of
    the window, an early exit on the first high sample with the negation
    of that sample, the negation of the last sample otherwise. *)
Fixpoint debounce_spec_loop (window : nat) (samples : nat -> bool) (k : nat)
    (flag : bool) : bool * nat :=
  match window with
  | O => (negb flag, k)
  | S window' =>
      let flag := samples k in
      if flag
      then (negb flag, S k)
      else debounce_spec_loop window' samples (S k) flag
  end.

Definition debounce_spec (samples : nat -> bool) : bool * nat :=
  debounce_spec_loop _DEBOUNCE_SAMPLES samples 0%nat false.

(** One call of the driver, or one timer interrupt, from the state [s]
    to the state it ends in (whether it returned or raised). *)
Inductive step (s : Atlas) : Atlas -> Prop :=
  | step_display_brightness value :
      step s (final_state (display_brightness value s))
  | step_display_clear :
      step s (final_state (display_clear s))
  | step_write_num value dp :
      step s (final_state (write_num value dp s))
  | step_write_hex value :
      step s (final_state (Starter.write_hex value s))
  | step_increment_num hex :
      step s (final_state (Starter.increment_num hex s))
  | step_decrement_num hex :
      step s (final_state (Starter.decrement_num hex s))
  | step_set_time hour minute second :
      step s (final_state (Starter.set_time hour minute second s))
  | step_start_clock24 :
      step s (final_state (Starter.start_clock24 s))
  | step_play_note freq duration :
      step s (final_state (Starter.play_note freq duration s))
  | step_play_song notes :
      step s (final_state (Starter.play_song notes s))
  | step_stop_note :
      step s (final_state (Kit.stop_note s))
  | step_mode_button button :
      step s (final_state (Kit.mode_button_callback button s))
  | step_incr_button button :
      step s (final_state (Kit.incr_button_callback button s))
  | step_decr_button button :
      step s (final_state (Kit.decr_button_callback button s))
  | step_fire id :
      step s (final_state (fire id s))
  | step_set_time_ntp network_time utc_offset :
      step s (final_state (Starter.set_time_ntp network_time utc_offset s))
  | step_kit_play_note freq :
      step s (final_state (Kit.play_note freq s))
  | step_starter_mode_button button :
      step s (final_state (Starter.mode_button_callback button s))
  | step_starter_incr_button button :
      step s (final_state (Starter.incr_button_callback button s))
  | step_starter_decr_button button :
      step s (final_state (Starter.decr_button_callback button s)).

(** The states a constructed driver can be in. *)
Inductive reachable : Atlas -> Prop :=
  | reachable_kit s0 : reachable (final_state (Kit.__init__ s0))
  | reachable_starter s0 : reachable (final_state (Starter.__init__ s0))
  | reachable_step s s' : reachable s -> step s s' -> reachable s'.

(** *** What the statements about the rest of the driver use *)

(** The data last sent to each register: what the controller's
    registers hold after the frames [frames]. *)
Definition write_register (regs : gmap Z Z) (fr : Z * Z) : gmap Z Z :=
  <[fst fr := snd fr]> regs.

Definition registers (frames : list (Z * Z)) : gmap Z Z :=
  foldl write_register ∅ frames.

(** The hexadecimal digit whose segment pattern is [seg]. *)
Definition hex_of_seg (seg : Z) : option Z :=
  List.find (fun k => match _HEX_TO_SEG !! k with
                      | Some pattern => pattern =? seg
                      | None => false
                      end) (range 16).

(** The number shown by segment-pattern frames listed from the least
    significant position. *)
Fixpoint read_back_hex (frames : list (Z * Z)) : option Z :=
  match frames with
  | [] => Some 0
  | fr :: rest =>
      match hex_of_seg (snd fr), read_back_hex rest with
      | Some nibble, Some high => Some (nibble + 16 * high)
      | _, _ => None
      end
  end.

(** A frame [bytearray([command, data])] accepts. *)
Definition byte_frame (fr : Z * Z) : Prop :=
  0 <= fst fr <= 255 /\ 0 <= snd fr <= 255.

Definition bus_bytes (s : Atlas) : Prop := Forall byte_frame (bus s).

(** The stored number is within what [write_num] and [write_hex] accept. *)
Definition num_ok (s : Atlas) : Prop :=
  match current_num s with
  | None => True
  | Some n => _MIN_VALUE_DEC <= n <= _MAX_VALUE_HEX
  end.

(** The bus of [s'] is the bus of [s] followed by frames of bytes. *)
Definition grows_by_bytes (s s' : Atlas) : Prop :=
  exists frames, bus s' = bus s ++ frames /\ Forall byte_frame frames.

(** A call that returned, or raised a [ValueError]. *)
Definition returns_or_ValueError {A} (o : outcome A) : bool :=
  match o with
  | Return _ _ => true
  | Raise (ValueError _) _ => true
  | Raise _ _ => false
  end.

(** [k] interrupts of hardware timer [id] in a row. *)
Fixpoint fire_times (k : nat) (id : Z) (s : Atlas) : Atlas :=
  match k with
  | O => s
  | S k' => fire_times k' id (final_state (fire id s))
  end.

(** ** Basic facts *)

(** Arithmetic side conditions over the module's bounds. *)
Ltac bounds :=
  unfold dp_ok, _MAX_VALUE_DEC, _MIN_VALUE_DEC, _MAX_VALUE_HEX, _MIN_VALUE_HEX,
    _MAX_VALUE_DP, _MIN_VALUE_DP in *;
  lia.

Lemma bind_Return {A B} (m : M A) (k : A -> M B) s a s' :
  m s = Return a s' -> (m ≫= k) s = k a s'.
Proof. intros H. unfold mbind, M_bind. now rewrite H. Qed.

Lemma bind_Raise {A B} (m : M A) (k : A -> M B) s e s' :
  m s = Raise e s' -> (m ≫= k) s = Raise e s'.
Proof. intros H. unfold mbind, M_bind. now rewrite H. Qed.

Lemma _register_sent command data s :
  _register command data s = Return tt (sent [(command, data)] s).
Proof. reflexivity. Qed.

Lemma sent_sent f1 f2 s : sent f2 (sent f1 s) = sent (f1 ++ f2) s.
Proof. unfold sent, set_cs, set_bus; simpl. now rewrite app_assoc. Qed.

Lemma sent_current_num frames s : current_num (sent frames s) = current_num s.
Proof. reflexivity. Qed.

Lemma sent_current_dp frames s : current_dp (sent frames s) = current_dp s.
Proof. reflexivity. Qed.

Lemma sent_bus frames s : bus (sent frames s) = bus s ++ frames.
Proof. reflexivity. Qed.

Lemma digit_dict_lookup i : 0 <= i < 6 -> _DIGIT_DICT !! i = Some (i + 1).
Proof.
  intros H.
  assert (i = 0 \/ i = 1 \/ i = 2 \/ i = 3 \/ i = 4 \/ i = 5) as Hi by lia.
  destruct Hi as [-> | [-> | [-> | [-> | [-> | ->]]]]]; reflexivity.
Qed.

Lemma hex_to_seg_lookup k :
  0 <= k < 16 -> _HEX_TO_SEG !! k = Some (default 0 (_HEX_TO_SEG !! k)).
Proof.
  intros H.
  assert (k = 0 \/ k = 1 \/ k = 2 \/ k = 3 \/ k = 4 \/ k = 5 \/ k = 6 \/ k = 7
          \/ k = 8 \/ k = 9 \/ k = 10 \/ k = 11 \/ k = 12 \/ k = 13 \/ k = 14
          \/ k = 15) as Hk by lia.
  repeat (destruct Hk as [-> | Hk]; [reflexivity |]).
  subst k; reflexivity.
Qed.

Lemma getitem_digit i s :
  0 <= i < 6 -> getitem _DIGIT_DICT i s = Return (i + 1) s.
Proof. intros H. unfold getitem. now rewrite digit_dict_lookup. Qed.

Lemma getitem_seg k s :
  0 <= k < 16 ->
  getitem _HEX_TO_SEG k s = Return (default 0 (_HEX_TO_SEG !! k)) s.
Proof. intros H. unfold getitem. now rewrite hex_to_seg_lookup. Qed.

Lemma range_bounds n i : In i (range n) -> 0 <= i < Z.of_nat n.
Proof.
  unfold range. rewrite in_map_iff. intros [k [<- Hk]].
  apply in_seq in Hk. lia.
Qed.

(** ** The digit loops *)

Lemma write_num_loop_sent idxs :
  (forall i, In i idxs -> 0 <= i < 6) ->
  forall value dp pre s,
    write_num_loop idxs value dp (sent pre s)
    = Return tt (sent (pre ++ digit_frames idxs value dp) s).
Proof.
  induction idxs as [| i rest IH]; intros Hidx value dp pre s.
  - simpl. now rewrite app_nil_r.
  - cbn [write_num_loop digit_frames].
    assert (Hi : 0 <= i < 6) by (apply Hidx; now left).
    assert (Hhead :
      (if truthy (Z.land dp 1)
       then d ← getitem _DIGIT_DICT i; _register d (Z.lor (value mod 10) _DP)
       else d ← getitem _DIGIT_DICT i; _register d (value mod 10)) (sent pre s)
      = Return tt (sent (pre ++ [(i + 1,
                    if truthy (Z.land dp 1)
                    then Z.lor (value mod 10) _DP
                    else value mod 10)]) s)).
    { destruct (truthy (Z.land dp 1));
        (erewrite bind_Return by (now apply getitem_digit));
        rewrite _register_sent, sent_sent; reflexivity. }
    erewrite bind_Return by exact Hhead.
    rewrite IH by (intros j Hj; apply Hidx; now right).
    now rewrite <- app_assoc.
Qed.

Lemma write_hex_loop_sent idxs :
  (forall i, In i idxs -> 0 <= i < 6) ->
  forall value pre s,
    Starter.write_hex_loop idxs value (sent pre s)
    = Return tt (sent (pre ++ hex_frames idxs value) s).
Proof.
  induction idxs as [| i rest IH]; intros Hidx value pre s.
  - simpl. now rewrite app_nil_r.
  - cbn [Starter.write_hex_loop hex_frames].
    assert (Hi : 0 <= i < 6) by (apply Hidx; now left).
    erewrite bind_Return by (now apply getitem_digit).
    erewrite bind_Return by (apply getitem_seg, Z.mod_pos_bound; lia).
    erewrite bind_Return by (rewrite _register_sent, sent_sent; reflexivity).
    rewrite IH by (intros j Hj; apply Hidx; now right).
    now rewrite <- app_assoc.
Qed.

(** ** [write_num] case by case *)

Lemma truthy_land_1 dp : truthy (Z.land dp 1) = Z.testbit dp 0.
Proof.
  unfold truthy.
  change 1 with (Z.ones 1). rewrite Z.land_ones by lia.
  change (2 ^ 1) with 2. rewrite <- Z.bit0_mod.
  now destruct (Z.testbit dp 0).
Qed.

Lemma digit_frames_closed n : forall a value dp,
  digit_frames (map Z.of_nat (seq a n))
               (value / 10 ^ Z.of_nat a) (Z.shiftr dp (Z.of_nat a))
  = map (digit_frame value dp) (map Z.of_nat (seq a n)).
Proof.
  induction n as [| n IH]; intros a value dp; [reflexivity |].
  cbn [seq map digit_frames]. f_equal.
  - unfold digit_frame. f_equal.
    rewrite truthy_land_1, Z.shiftr_spec by lia.
    now rewrite Z.add_0_l.
  - rewrite <- IH. f_equal.
    + rewrite Z.div_div by lia.
      f_equal. rewrite Nat2Z.inj_succ, Z.pow_succ_r by lia. lia.
    + rewrite Z.shiftr_shiftr by lia. f_equal. lia.
Qed.

Lemma digit_frames_range n value dp :
  digit_frames (range n) value dp = map (digit_frame value dp) (range n).
Proof.
  unfold range. rewrite <- digit_frames_closed.
  now rewrite Z.pow_0_r, Z.div_1_r, Z.shiftr_0_r.
Qed.

Lemma write_num_nonneg value dp s :
  0 <= value <= _MAX_VALUE_DEC ->
  _MIN_VALUE_DP <= dp <= _MAX_VALUE_DP ->
  write_num value dp s
  = Return tt (sent ((_DECODE_MODE, 0xFF) :: map (digit_frame value dp) (range 6))
                    (set_current_dp dp (set_current_num (Some value) s))).
Proof.
  intros Hv Hdp. unfold write_num.
  erewrite bind_Return by apply _register_sent.
  replace ((0 <=? value) && (value <=? _MAX_VALUE_DEC)
           && ((_MIN_VALUE_DP <=? dp) && (dp <=? _MAX_VALUE_DP))) with true
    by (symmetry; rewrite !andb_true_iff, !Z.leb_le; lia).
  erewrite bind_Return by reflexivity.
  erewrite bind_Return by reflexivity.
  change (set_current_dp dp (set_current_num (Some value)
            (sent [(_DECODE_MODE, 255)] s)))
    with (sent [(_DECODE_MODE, 255)]
            (set_current_dp dp (set_current_num (Some value) s))).
  rewrite write_num_loop_sent by apply range_bounds.
  now rewrite digit_frames_range.
Qed.

Lemma write_num_negative value dp s :
  _MIN_VALUE_DEC <= value < 0 ->
  _MIN_VALUE_DP <= dp <= _MAX_VALUE_DP ->
  write_num value dp s
  = Return tt (sent ((_DECODE_MODE, 0xFF) :: (_DIGIT5, 0xA)
                       :: map (digit_frame (- value) dp) (range 5))
                    (set_current_dp dp (set_current_num (Some value) s))).
Proof.
  intros Hv Hdp. unfold write_num.
  erewrite bind_Return by apply _register_sent.
  replace ((0 <=? value) && (value <=? _MAX_VALUE_DEC)
           && ((_MIN_VALUE_DP <=? dp) && (dp <=? _MAX_VALUE_DP))) with false
    by (symmetry; rewrite !andb_false_iff, !Z.leb_gt; lia).
  replace ((0 >? value) && (value >=? _MIN_VALUE_DEC)
           && ((_MIN_VALUE_DP <=? dp) && (dp <=? _MAX_VALUE_DP))) with true
    by (symmetry; rewrite !andb_true_iff, Z.gtb_ltb, Z.geb_leb,
          Z.ltb_lt, !Z.leb_le; lia).
  erewrite bind_Return by reflexivity.
  erewrite bind_Return by reflexivity.
  change (set_current_dp dp (set_current_num (Some value)
            (sent [(_DECODE_MODE, 255)] s)))
    with (sent [(_DECODE_MODE, 255)]
            (set_current_dp dp (set_current_num (Some value) s))).
  erewrite bind_Return by (rewrite _register_sent, sent_sent; reflexivity).
  change ([(_DECODE_MODE, 255)] ++ [(_DIGIT5, 10)])
    with [(_DECODE_MODE, 255); (_DIGIT5, 10)].
  rewrite write_num_loop_sent
    by (intros i Hi; apply range_bounds in Hi; lia).
  now rewrite digit_frames_range.
Qed.

Lemma write_num_out_of_range value dp s :
  value > _MAX_VALUE_DEC \/ value < _MIN_VALUE_DEC
  \/ dp < _MIN_VALUE_DP \/ dp > _MAX_VALUE_DP ->
  write_num value dp s
  = Raise (ValueError "Value out of range") (sent [(_DECODE_MODE, 0xFF)] s).
Proof.
  intros H. unfold write_num.
  erewrite bind_Return by apply _register_sent.
  replace ((0 <=? value) && (value <=? _MAX_VALUE_DEC)
           && ((_MIN_VALUE_DP <=? dp) && (dp <=? _MAX_VALUE_DP))) with false
    by (symmetry; rewrite !andb_false_iff, !Z.leb_gt;
        unfold _MAX_VALUE_DEC, _MIN_VALUE_DEC, _MIN_VALUE_DP, _MAX_VALUE_DP in *;
        lia).
  replace ((0 >? value) && (value >=? _MIN_VALUE_DEC)
           && ((_MIN_VALUE_DP <=? dp) && (dp <=? _MAX_VALUE_DP))) with false
    by (symmetry; rewrite !andb_false_iff, Z.gtb_ltb, Z.geb_leb,
          Z.ltb_ge, !Z.leb_gt;
        unfold _MAX_VALUE_DEC, _MIN_VALUE_DEC, _MIN_VALUE_DP, _MAX_VALUE_DP in *;
        lia).
  reflexivity.
Qed.

(** ** Reading digit frames back *)

Lemma digit_cases d :
  0 <= d < 10 ->
  d = 0 \/ d = 1 \/ d = 2 \/ d = 3 \/ d = 4 \/ d = 5 \/ d = 6 \/ d = 7
  \/ d = 8 \/ d = 9.
Proof. lia. Qed.

Lemma digit_field_lor d : 0 <= d < 10 -> Z.land (Z.lor d _DP) 0x0F = d.
Proof.
  intros H. apply digit_cases in H.
  repeat (destruct H as [-> | H]; [reflexivity |]). now subst d.
Qed.

Lemma digit_field_plain d : 0 <= d < 10 -> Z.land d 0x0F = d.
Proof.
  intros H. apply digit_cases in H.
  repeat (destruct H as [-> | H]; [reflexivity |]). now subst d.
Qed.

Lemma dp_flag_lor d : 0 <= d < 10 -> Z.testbit (Z.lor d _DP) 7 = true.
Proof. intros _. rewrite Z.lor_spec. apply orb_true_r. Qed.

Lemma dp_flag_plain d : 0 <= d < 10 -> Z.testbit d 7 = false.
Proof.
  intros H. apply digit_cases in H.
  repeat (destruct H as [-> | H]; [reflexivity |]). now subst d.
Qed.

Lemma digit_bound value i : 0 <= (value / 10 ^ i) mod 10 < 10.
Proof. apply Z.mod_pos_bound. lia. Qed.

Lemma digit_field_frame value dp i :
  digit_field (digit_frame value dp i) = (value / 10 ^ i) mod 10.
Proof.
  unfold digit_field, digit_frame; cbn [snd].
  destruct (Z.testbit dp i);
    [apply digit_field_lor | apply digit_field_plain]; apply digit_bound.
Qed.

Lemma dp_flag_frame value dp i :
  dp_flag (digit_frame value dp i) = Z.testbit dp i.
Proof.
  unfold dp_flag, digit_frame; cbn [snd].
  destruct (Z.testbit dp i);
    [apply dp_flag_lor | apply dp_flag_plain]; apply digit_bound.
Qed.

Lemma read_back_frames n : forall a value dp,
  read_back (map (digit_frame value dp) (map Z.of_nat (seq a n)))
  = (value / 10 ^ Z.of_nat a) mod 10 ^ Z.of_nat n.
Proof.
  induction n as [| n IH]; intros a value dp.
  - cbn. now rewrite Z.mod_1_r.
  - cbn [seq map read_back fold_right].
    fold (read_back (map (digit_frame value dp) (map Z.of_nat (seq (S a) n)))).
    rewrite IH, digit_field_frame.
    rewrite (Nat2Z.inj_succ n), Z.pow_succ_r by lia.
    rewrite Z.rem_mul_r by lia.
    rewrite (Nat2Z.inj_succ a), Z.pow_succ_r by lia.
    rewrite (Z.mul_comm 10 (10 ^ Z.of_nat a)), <- Z.div_div by lia.
    reflexivity.
Qed.

Lemma read_back_range n value dp :
  0 <= value < 10 ^ Z.of_nat n ->
  read_back (map (digit_frame value dp) (range n)) = value.
Proof.
  intros H. unfold range. rewrite read_back_frames.
  rewrite Z.pow_0_r, Z.div_1_r. now apply Z.mod_small.
Qed.

(** ** Display writes *)

(** C1: for [value] in [0, 999999] and [dp] in [0, 0b111111],
    [write_num] sends the decode-mode frame and then six digit frames,
    one per position 0..5 from the least significant digit, to the digit
    registers 1..6; frame [i] carries the digit [(value / 10^i) mod 10],
    its decimal-point bit (0x80) is set iff bit [i] of [dp] is set, and
    the six digit fields read back give [value]. *)
Theorem write_num_six_digits (value dp : Z) (s : Atlas) :
  0 <= value <= 999999 ->
  0 <= dp <= 63 ->
  let frames := map (digit_frame value dp) (range 6) in
  write_num value dp s
  = Return tt (sent ((_DECODE_MODE, 0xFF) :: frames)
                    (set_current_dp dp (set_current_num (Some value) s)))
  /\ map fst frames = [_DIGIT0; _DIGIT1; _DIGIT2; _DIGIT3; _DIGIT4; _DIGIT5]
  /\ (forall i, 0 <= i < 6 ->
        frames !! Z.to_nat i = Some (digit_frame value dp i)
        /\ digit_field (digit_frame value dp i) = (value / 10 ^ i) mod 10
        /\ (dp_flag (digit_frame value dp i) = true <-> Z.testbit dp i = true)
        /\ snd (digit_frame value dp i)
           = if Z.testbit dp i
             then Z.lor ((value / 10 ^ i) mod 10) 0x80
             else (value / 10 ^ i) mod 10)
  /\ read_back frames = value.
Proof.
  intros Hv Hdp frames. subst frames. repeat split.
  - now apply write_num_nonneg.
  - assert (i = 0 \/ i = 1 \/ i = 2 \/ i = 3 \/ i = 4 \/ i = 5) as Hi by lia.
    destruct Hi as [-> | [-> | [-> | [-> | [-> | ->]]]]]; reflexivity.
  - apply digit_field_frame.
  - now rewrite dp_flag_frame.
  - now rewrite dp_flag_frame.
  - apply read_back_range. change (10 ^ Z.of_nat 6) with 1000000. lia.
Qed.

Lemma write_num_six_digits_witness :
  write_num 123 2 blank
  = Return tt (sent [(9, 255); (1, 3); (2, 130); (3, 1); (4, 0); (5, 0); (6, 0)]
                    (set_current_dp 2 (set_current_num (Some 123) blank)))
  /\ read_back (map (digit_frame 123 2) (range 6)) = 123.
Proof.
  destruct (write_num_six_digits 123 2 blank ltac:(lia) ltac:(lia))
    as (Hrun & _ & _ & Hback).
  split; [exact Hrun | exact Hback].
Defined.

(** C5: for [value] in [-99999, -1] and [dp] in [0, 0b111111],
    [write_num] sends the decode-mode frame, the minus glyph (0xA) to
    digit register 6 (position 5), and exactly five digit frames for the
    positions 0..4 whose digit fields, read from the least significant
    one, give [abs value]. *)
Theorem write_num_negative_sign (value dp : Z) (s : Atlas) :
  -99999 <= value <= -1 ->
  0 <= dp <= 63 ->
  let frames := map (digit_frame (- value) dp) (range 5) in
  write_num value dp s
  = Return tt (sent ((_DECODE_MODE, 0xFF) :: (_DIGIT5, 0xA) :: frames)
                    (set_current_dp dp (set_current_num (Some value) s)))
  /\ _DIGIT_DICT !! 5 = Some _DIGIT5
  /\ length frames = 5%nat
  /\ map fst frames = [_DIGIT0; _DIGIT1; _DIGIT2; _DIGIT3; _DIGIT4]
  /\ (forall i, 0 <= i < 5 ->
        digit_field (digit_frame (- value) dp i) = (Z.abs value / 10 ^ i) mod 10)
  /\ read_back frames = Z.abs value.
Proof.
  intros Hv Hdp frames. subst frames.
  assert (Habs : Z.abs value = - value) by lia.
  repeat split.
  - apply write_num_negative; unfold _MIN_VALUE_DEC, _MIN_VALUE_DP, _MAX_VALUE_DP; lia.
  - intros i _. rewrite Habs. apply digit_field_frame.
  - rewrite Habs. apply read_back_range. change (10 ^ Z.of_nat 5) with 100000. lia.
Qed.

Lemma write_num_negative_sign_witness :
  write_num (-45) 63 blank
  = Return tt (sent [(9, 255); (6, 10); (1, 133); (2, 132); (3, 128);
                     (4, 128); (5, 128)]
                    (set_current_dp 63 (set_current_num (Some (-45)) blank)))
  /\ read_back (map (digit_frame 45 63) (range 5)) = 45.
Proof.
  destruct (write_num_negative_sign (-45) 63 blank ltac:(lia) ltac:(lia))
    as (Hrun & _ & _ & _ & _ & Hback).
  split; [exact Hrun | exact Hback].
Defined.

(** C2, as stated, fails: [write_num 1000000 0] raises, but the
    decode-mode register has been written by then, so the bus is not what
    it was before the call. *)
Lemma write_num_reject_touches_bus :
  raised (write_num 1000000 0 blank) = true
  /\ bus (final_state (write_num 1000000 0 blank)) = [(_DECODE_MODE, 0xFF)]
  /\ bus (final_state (write_num 1000000 0 blank)) <> bus blank.
Proof. repeat split. discriminate. Qed.

(** C2, amended: when [value > 999999], [value < -99999], [dp < 0] or
    [dp > 0b111111], [write_num] raises the out-of-range [ValueError]
    after exactly one register write, the decode-mode write
    [(0x09, 0xFF)] with which it starts; no digit register is written and
    the stored current number and decimal-point mask are unchanged. *)
Theorem write_num_out_of_bounds (value dp : Z) (s : Atlas) :
  value > 999999 \/ value < -99999 \/ dp < 0 \/ dp > 63 ->
  write_num value dp s
  = Raise (ValueError "Value out of range") (sent [(_DECODE_MODE, 0xFF)] s)
  /\ bus (final_state (write_num value dp s)) = bus s ++ [(_DECODE_MODE, 0xFF)]
  /\ current_num (final_state (write_num value dp s)) = current_num s
  /\ current_dp (final_state (write_num value dp s)) = current_dp s.
Proof.
  intros H.
  assert (Hrun := write_num_out_of_range value dp s H).
  rewrite Hrun. repeat split.
Qed.

Lemma write_num_out_of_bounds_witness :
  write_num (-100000) 0 blank
  = Raise (ValueError "Value out of range") (sent [(_DECODE_MODE, 0xFF)] blank)
  /\ current_num (final_state (write_num (-100000) 0 blank)) = None.
Proof.
  destruct (write_num_out_of_bounds (-100000) 0 blank ltac:(lia))
    as (Hrun & _ & Hnum & _).
  split; [exact Hrun | exact Hnum].
Defined.

(** C10: [display_brightness value] performs one register write, of
    [value] to the intensity register, iff [0 <= value <= 15]; for any
    other value it raises [ValueError] with no register write and the
    whole state as it was. *)
Theorem display_brightness_range (value : Z) (s : Atlas) :
  (0 <= value <= 15 ->
     display_brightness value s = Return tt (sent [(_INTENSITY, value)] s))
  /\ (~ 0 <= value <= 15 ->
     display_brightness value s = Raise (ValueError "Brightness out of range") s)
  /\ (bus (final_state (display_brightness value s)) = bus s ++ [(_INTENSITY, value)]
      <-> 0 <= value <= 15)
  /\ (bus (final_state (display_brightness value s)) = bus s
      <-> ~ 0 <= value <= 15).
Proof.
  assert (Hne : forall fr : Z * Z, bus s ++ [fr] <> bus s).
  { intros fr Heq. apply (f_equal (@length _)) in Heq.
    rewrite length_app in Heq. cbn in Heq. lia. }
  unfold display_brightness.
  destruct ((0 <=? value) && (value <=? 15)) eqn:Hc.
  - apply andb_true_iff in Hc as [H0 H15].
    apply Z.leb_le in H0, H15.
    rewrite _register_sent. cbn [final_state]. rewrite sent_bus.
    split; [reflexivity |]. split; [intros Hout; lia |].
    split; [split; [lia | reflexivity] |].
    split; [intros Heq; now apply Hne in Heq | intros Hout; lia].
  - assert (Hout : ~ 0 <= value <= 15).
    { apply andb_false_iff in Hc as [H | H]; apply Z.leb_gt in H; lia. }
    cbn [final_state raise].
    split; [intros Hin; tauto |]. split; [reflexivity |].
    split; [split; [intros Heq; symmetry in Heq; now apply Hne in Heq | tauto] |].
    split; [intros _; exact Hout | reflexivity].
Qed.

Lemma display_brightness_range_witness :
  display_brightness 5 blank = Return tt (sent [(_INTENSITY, 5)] blank)
  /\ display_brightness 16 blank = Raise (ValueError "Brightness out of range") blank.
Proof.
  split.
  - apply (display_brightness_range 5 blank). lia.
  - apply (display_brightness_range 16 blank). lia.
Defined.

(** ** [write_hex] case by case *)

Lemma write_hex_in_range value s :
  0 <= value <= _MAX_VALUE_HEX ->
  Starter.write_hex value s
  = Return tt (sent ((_DECODE_MODE, 0x0) :: hex_frames (range 6) value)
                    (set_current_num (Some value) s)).
Proof.
  intros Hv. unfold Starter.write_hex.
  erewrite bind_Return by apply _register_sent.
  replace ((0 <=? value) && (value <=? _MAX_VALUE_HEX)) with true
    by (symmetry; rewrite andb_true_iff, !Z.leb_le; lia).
  erewrite bind_Return by reflexivity.
  change (set_current_num (Some value) (sent [(_DECODE_MODE, 0)] s))
    with (sent [(_DECODE_MODE, 0)] (set_current_num (Some value) s)).
  now rewrite write_hex_loop_sent by apply range_bounds.
Qed.

Lemma write_hex_out_of_range value s :
  value < 0 \/ value > _MAX_VALUE_HEX ->
  Starter.write_hex value s
  = Raise (ValueError "Value out of range") (sent [(_DECODE_MODE, 0x0)] s).
Proof.
  intros Hv. unfold Starter.write_hex.
  erewrite bind_Return by apply _register_sent.
  replace ((0 <=? value) && (value <=? _MAX_VALUE_HEX)) with false
    by (symmetry; rewrite andb_false_iff, !Z.leb_gt;
        unfold _MAX_VALUE_HEX in *; lia).
  reflexivity.
Qed.

(** ** Increment and decrement *)

(** What [increment_num] and [decrement_num] come down to once the
    stored number is known. *)
Lemma increment_num_step hex n s :
  current_num s = Some n ->
  Starter.increment_num hex s
  = let limit := if hex then _MAX_VALUE_HEX else _MAX_VALUE_DEC in
    let n' := if n + 1 >? limit then -1 else n in
    let s' := if n + 1 >? limit then set_current_num (Some (-1)) s else s in
    if hex then Starter.write_hex (n' + 1) s'
    else write_num (n' + 1) (current_dp s) s'.
Proof.
  intros Hn. unfold Starter.increment_num.
  erewrite bind_Return by reflexivity. rewrite Hn.
  destruct hex; cbv zeta.
  - destruct (n + 1 >? _MAX_VALUE_HEX).
    + erewrite bind_Return by reflexivity.
      erewrite bind_Return by reflexivity. reflexivity.
    + erewrite bind_Return by reflexivity.
      erewrite bind_Return by (unfold current_num_value; rewrite Hn; reflexivity).
      reflexivity.
  - destruct (n + 1 >? _MAX_VALUE_DEC).
    + erewrite bind_Return by reflexivity.
      erewrite bind_Return by reflexivity.
      erewrite bind_Return by reflexivity. reflexivity.
    + erewrite bind_Return by reflexivity.
      erewrite bind_Return by (unfold current_num_value; rewrite Hn; reflexivity).
      erewrite bind_Return by reflexivity. reflexivity.
Qed.

Lemma decrement_num_step hex n s :
  current_num s = Some n ->
  Starter.decrement_num hex s
  = let limit := if hex then _MIN_VALUE_HEX else _MIN_VALUE_DEC in
    let n' := if n - 1 <? limit then 1 else n in
    let s' := if n - 1 <? limit then set_current_num (Some 1) s else s in
    if hex then Starter.write_hex (n' - 1) s'
    else write_num (n' - 1) (current_dp s) s'.
Proof.
  intros Hn. unfold Starter.decrement_num.
  erewrite bind_Return by reflexivity. rewrite Hn.
  destruct hex; cbv zeta.
  - destruct (n - 1 <? _MIN_VALUE_HEX).
    + erewrite bind_Return by reflexivity.
      erewrite bind_Return by reflexivity. reflexivity.
    + erewrite bind_Return by reflexivity.
      erewrite bind_Return by (unfold current_num_value; rewrite Hn; reflexivity).
      reflexivity.
  - destruct (n - 1 <? _MIN_VALUE_DEC).
    + erewrite bind_Return by reflexivity.
      erewrite bind_Return by reflexivity.
      erewrite bind_Return by reflexivity. reflexivity.
    + erewrite bind_Return by reflexivity.
      erewrite bind_Return by (unfold current_num_value; rewrite Hn; reflexivity).
      erewrite bind_Return by reflexivity. reflexivity.
Qed.

Lemma increment_num_blank hex s :
  current_num s = None ->
  Starter.increment_num hex s = Raise (ValueError "No value to increment") s.
Proof.
  intros Hn. unfold Starter.increment_num.
  erewrite bind_Return by reflexivity. now rewrite Hn.
Qed.

Lemma decrement_num_blank hex s :
  current_num s = None ->
  Starter.decrement_num hex s = Raise (ValueError "No value to decrement") s.
Proof.
  intros Hn. unfold Starter.decrement_num.
  erewrite bind_Return by reflexivity. now rewrite Hn.
Qed.

(** atlas.py has the decimal branch only. *)
Lemma Kit_increment_num : Kit.increment_num = Starter.increment_num false.
Proof. reflexivity. Qed.

Lemma Kit_decrement_num : Kit.decrement_num = Starter.decrement_num false.
Proof. reflexivity. Qed.

(** C4: at the maximum of the mode (999999 decimal, 0xFFFFFF
    hexadecimal) [increment_num] first stores -1 and then writes
    [-1 + 1], so 0 is stored and shown; at the minimum of the mode
    (-99999 decimal, 0 hexadecimal) [decrement_num] first stores 1 and
    then writes [1 - 1], so 0 is stored and shown. *)
Theorem increment_decrement_wrap (s : Atlas) :
  (dp_ok s -> current_num s = Some _MAX_VALUE_DEC ->
     Starter.increment_num false s
     = write_num (-1 + 1) (current_dp s) (set_current_num (Some (-1)) s)
     /\ Starter.increment_num false s
        = Return tt (sent (zero_dec_frames (current_dp s))
                          (set_current_num (Some 0) s)))
  /\ (current_num s = Some _MAX_VALUE_HEX ->
     Starter.increment_num true s
     = Starter.write_hex (-1 + 1) (set_current_num (Some (-1)) s)
     /\ Starter.increment_num true s
        = Return tt (sent zero_hex_frames (set_current_num (Some 0) s)))
  /\ (dp_ok s -> current_num s = Some _MIN_VALUE_DEC ->
     Starter.decrement_num false s
     = write_num (1 - 1) (current_dp s) (set_current_num (Some 1) s)
     /\ Starter.decrement_num false s
        = Return tt (sent (zero_dec_frames (current_dp s))
                          (set_current_num (Some 0) s)))
  /\ (current_num s = Some _MIN_VALUE_HEX ->
     Starter.decrement_num true s
     = Starter.write_hex (1 - 1) (set_current_num (Some 1) s)
     /\ Starter.decrement_num true s
        = Return tt (sent zero_hex_frames (set_current_num (Some 0) s)))
  /\ read_back (map (digit_frame 0 (current_dp s)) (range 6)) = 0.
Proof.
  split; [| split; [| split; [| split]]].
  - intros Hdp Hn. rewrite (increment_num_step false _ s Hn). cbv zeta.
    change (_MAX_VALUE_DEC + 1 >? _MAX_VALUE_DEC) with true. cbv iota.
    split; [reflexivity |].
    now rewrite write_num_nonneg by bounds.
  - intros Hn. rewrite (increment_num_step true _ s Hn). cbv zeta.
    change (_MAX_VALUE_HEX + 1 >? _MAX_VALUE_HEX) with true. cbv iota.
    split; [reflexivity |].
    now rewrite write_hex_in_range by bounds.
  - intros Hdp Hn. rewrite (decrement_num_step false _ s Hn). cbv zeta.
    change (_MIN_VALUE_DEC - 1 <? _MIN_VALUE_DEC) with true. cbv iota.
    split; [reflexivity |].
    now rewrite write_num_nonneg by bounds.
  - intros Hn. rewrite (decrement_num_step true _ s Hn). cbv zeta.
    change (_MIN_VALUE_HEX - 1 <? _MIN_VALUE_HEX) with true. cbv iota.
    split; [reflexivity |].
    now rewrite write_hex_in_range by bounds.
  - apply read_back_range. cbn. lia.
Qed.

Lemma increment_decrement_wrap_witness :
  Starter.increment_num false (set_current_num (Some 999999) blank)
  = Return tt (sent [(9, 255); (1, 0); (2, 0); (3, 0); (4, 0); (5, 0); (6, 0)]
                    (set_current_num (Some 0) blank))
  /\ Starter.decrement_num false (set_current_num (Some (-99999)) blank)
  = Return tt (sent [(9, 255); (1, 0); (2, 0); (3, 0); (4, 0); (5, 0); (6, 0)]
                    (set_current_num (Some 0) blank))
  /\ Starter.increment_num true (set_current_num (Some 16777215) blank)
  = Return tt (sent zero_hex_frames (set_current_num (Some 0) blank))
  /\ Starter.decrement_num true (set_current_num (Some 0) blank)
  = Return tt (sent zero_hex_frames (set_current_num (Some 0) blank)).
Proof.
  split; [| split; [| split]].
  - apply (increment_decrement_wrap (set_current_num (Some 999999) blank)).
    + unfold dp_ok. cbn. bounds.
    + reflexivity.
  - apply (increment_decrement_wrap (set_current_num (Some (-99999)) blank)).
    + unfold dp_ok. cbn. bounds.
    + reflexivity.
  - apply (increment_decrement_wrap (set_current_num (Some 16777215) blank)).
    reflexivity.
  - apply (increment_decrement_wrap (set_current_num (Some 0) blank)).
    reflexivity.
Defined.

(** C9: for [value] in [0, 0xFFFFFF], [write_hex] stores [value] as the
    current number and leaves the stored decimal-point mask as it was, so
    the decimal [increment_num] / [decrement_num] that follow write with
    the mask of the most recent [write_num]. *)
Theorem write_hex_keeps_dp (value : Z) (s : Atlas) :
  0 <= value <= 0xFFFFFF ->
  let t := final_state (Starter.write_hex value s) in
  Starter.write_hex value s = Return tt t
  /\ current_num t = Some value
  /\ current_dp t = current_dp s
  /\ Starter.increment_num false t
     = write_num (if value + 1 >? _MAX_VALUE_DEC then 0 else value + 1)
                 (current_dp s)
                 (if value + 1 >? _MAX_VALUE_DEC
                  then set_current_num (Some (-1)) t else t)
  /\ Starter.decrement_num false t = write_num (value - 1) (current_dp s) t
  /\ (forall v dp s0,
        _MIN_VALUE_DEC <= v <= _MAX_VALUE_DEC ->
        _MIN_VALUE_DP <= dp <= _MAX_VALUE_DP ->
        s = final_state (write_num v dp s0) ->
        current_dp t = dp
        /\ current_dp (final_state (Starter.increment_num false t)) = dp
        /\ current_dp (final_state (Starter.decrement_num false t)) = dp).
Proof.
  intros Hv t. subst t.
  rewrite write_hex_in_range by bounds. cbn [final_state].
  set (t := sent _ _).
  assert (Hnum : current_num t = Some value) by reflexivity.
  assert (Hdp : current_dp t = current_dp s) by reflexivity.
  assert (Hinc : Starter.increment_num false t
     = write_num (if value + 1 >? _MAX_VALUE_DEC then 0 else value + 1)
                 (current_dp s)
                 (if value + 1 >? _MAX_VALUE_DEC
                  then set_current_num (Some (-1)) t else t)).
  { rewrite (increment_num_step false value t Hnum). cbv zeta. rewrite Hdp.
    now destruct (value + 1 >? _MAX_VALUE_DEC). }
  assert (Hdec : Starter.decrement_num false t
                 = write_num (value - 1) (current_dp s) t).
  { rewrite (decrement_num_step false value t Hnum). cbv zeta. rewrite Hdp.
    replace (value - 1 <? _MIN_VALUE_DEC) with false
      by (symmetry; apply Z.ltb_ge; bounds).
    reflexivity. }
  repeat (split; [assumption || reflexivity |]).
  intros v dp s0 Hvr Hdpr Hs.
  assert (Hs_dp : current_dp s = dp).
  { rewrite Hs. destruct (Z.lt_ge_cases v 0).
    - now rewrite write_num_negative by bounds.
    - now rewrite write_num_nonneg by bounds. }
  rewrite Hinc, Hdec, Hdp, Hs_dp. split; [reflexivity |]. split.
  - destruct (value + 1 >? _MAX_VALUE_DEC) eqn:Hc.
    + now rewrite write_num_nonneg by bounds.
    + rewrite Z.gtb_ltb in Hc. apply Z.ltb_ge in Hc.
      now rewrite write_num_nonneg by bounds.
  - destruct (Z.eq_dec value 0) as [-> | Hnz].
    + now rewrite write_num_negative by bounds.
    + destruct (Z_le_gt_dec (value - 1) _MAX_VALUE_DEC).
      * now rewrite write_num_nonneg by bounds.
      * now rewrite write_num_out_of_range by bounds.
Qed.

Lemma write_hex_keeps_dp_witness :
  current_num (final_state (Starter.write_hex 255
                 (final_state (write_num 7 2 blank)))) = Some 255
  /\ current_dp (final_state (Starter.write_hex 255
                 (final_state (write_num 7 2 blank)))) = 2.
Proof.
  destruct (write_hex_keeps_dp 255 (final_state (write_num 7 2 blank))
              ltac:(lia)) as (_ & Hnum & Hdp & _).
  split; [exact Hnum | exact Hdp].
Defined.

(** ** The clock refresh *)

Lemma forallb_range (f : Z -> bool) n :
  forallb f (range n) = true -> forall i, 0 <= i < Z.of_nat n -> f i = true.
Proof.
  intros Hall i Hi. rewrite forallb_forall in Hall. apply Hall.
  unfold range. apply in_map_iff. exists (Z.to_nat i). split; [lia |].
  apply in_seq. lia.
Qed.

Lemma padded_all : forallb padded (range 60) = true.
Proof. vm_compute. reflexivity. Qed.

Lemma clock_sample_ok_all :
  forallb (fun h =>
    forallb (fun m =>
      forallb (fun sec => clock_sample_ok h m sec) (range 60)) (range 60))
    (range 24) = true.
Proof. vm_compute. reflexivity. Qed.

Lemma two_digits_padded field :
  0 <= field <= 59 ->
  Starter.two_digits field
  = String (digit_char (field / 10))
      (String (digit_char (field mod 10)) EmptyString).
Proof.
  intros H. apply String.eqb_eq.
  apply (forallb_range padded 60 padded_all). lia.
Qed.

Lemma time_str_fields t :
  Starter.time_str t
  = (Starter.two_digits (dt_hours t) +:+ Starter.two_digits (dt_minutes t))
    +:+ Starter.two_digits (dt_seconds t).
Proof. reflexivity. Qed.

Lemma int_time_str t s :
  0 <= dt_hours t <= 23 -> 0 <= dt_minutes t <= 59 -> 0 <= dt_seconds t <= 59 ->
  Starter.int (Starter.time_str t) s
  = Return (dt_hours t * 10000 + dt_minutes t * 100 + dt_seconds t) s.
Proof.
  intros Hh Hm Hs.
  assert (Hok : clock_sample_ok (dt_hours t) (dt_minutes t) (dt_seconds t) = true).
  { pose proof clock_sample_ok_all as Hall.
    apply (forallb_range _ 24) with (i := dt_hours t) in Hall; [| lia].
    apply (forallb_range _ 60) with (i := dt_minutes t) in Hall; [| lia].
    apply (forallb_range _ 60) with (i := dt_seconds t) in Hall; [| lia].
    exact Hall. }
  unfold clock_sample_ok in Hok. unfold Starter.int.
  change (Starter.time_str
            (DateTime 0 0 0 0 (dt_hours t) (dt_minutes t) (dt_seconds t) 0))
    with (Starter.time_str t) in Hok.
  destruct (NilZero.int_of_string (Starter.time_str t)) as [d |];
    [| discriminate].
  apply Z.eqb_eq in Hok. now rewrite Hok.
Qed.

(** C6: for a clock sample with hours in [0, 23], minutes and seconds in
    [0, 59], [_update_clock24] prints each field as exactly two decimal
    digits (tens, then units, so padded with a zero), joins them as
    HHMMSS and calls [write_num] with the integer
    [hours * 10000 + minutes * 100 + seconds] and the mask 0b010100,
    which sets the decimal points of positions 2 and 4 only; the call
    succeeds. *)
Theorem update_clock24_hhmmss (s : Atlas) :
  0 <= dt_hours (rtc s) <= 23 ->
  0 <= dt_minutes (rtc s) <= 59 ->
  0 <= dt_seconds (rtc s) <= 59 ->
  let h := dt_hours (rtc s) in
  let m := dt_minutes (rtc s) in
  let sec := dt_seconds (rtc s) in
  let two d := String (digit_char (d / 10))
                 (String (digit_char (d mod 10)) EmptyString) in
  Starter.time_str (rtc s) = (two h +:+ two m) +:+ two sec
  /\ String.length (Starter.time_str (rtc s)) = 6%nat
  /\ Starter.int (Starter.time_str (rtc s)) s
     = Return (h * 10000 + m * 100 + sec) s
  /\ Starter._update_clock24 s = write_num (h * 10000 + m * 100 + sec) 20 s
  /\ Starter._update_clock24 s
     = Return tt
         (sent ((_DECODE_MODE, 0xFF)
                  :: map (digit_frame (h * 10000 + m * 100 + sec) 20) (range 6))
               (set_current_dp 20
                  (set_current_num (Some (h * 10000 + m * 100 + sec)) s)))
  /\ (forall i, 0 <= i < 6 -> (Z.testbit 20 i = true <-> i = 2 \/ i = 4))
  /\ Starter.time_str (DateTime 2019 1 1 0 7 5 9 0) = "070509"%string
  /\ Starter.int "070509" s = Return 70509 s.
Proof.
  intros Hh Hm Hs h m sec two.
  assert (Hstr : Starter.time_str (rtc s) = (two h +:+ two m) +:+ two sec).
  { rewrite time_str_fields. subst h m sec two. cbv beta.
    now rewrite !two_digits_padded by lia. }
  assert (Hint := int_time_str (rtc s) s Hh Hm Hs). fold h m sec in Hint.
  assert (Hrun : Starter._update_clock24 s
                 = write_num (h * 10000 + m * 100 + sec) 20 s).
  { unfold Starter._update_clock24.
    erewrite bind_Return by reflexivity.
    erewrite bind_Return by exact Hint. reflexivity. }
  split; [exact Hstr |]. split; [now rewrite Hstr |].
  split; [exact Hint |]. split; [exact Hrun |].
  split; [| split; [| split; reflexivity]].
  - rewrite Hrun. apply write_num_nonneg; subst h m sec; bounds.
  - intros i Hi.
    assert (i = 0 \/ i = 1 \/ i = 2 \/ i = 3 \/ i = 4 \/ i = 5) as Hc by lia.
    destruct Hc as [-> | [-> | [-> | [-> | [-> | ->]]]]]; cbn; split;
      intros; (discriminate || lia || reflexivity).
Qed.

Lemma update_clock24_hhmmss_witness :
  Starter.time_str (DateTime 2019 1 1 0 7 5 9 0) = "070509"%string
  /\ Starter._update_clock24 (set_rtc (DateTime 2019 1 1 0 7 5 9 0) blank)
     = write_num 70509 20 (set_rtc (DateTime 2019 1 1 0 7 5 9 0) blank).
Proof.
  destruct (update_clock24_hhmmss (set_rtc (DateTime 2019 1 1 0 7 5 9 0) blank)
              ltac:(cbn; lia) ltac:(cbn; lia) ltac:(cbn; lia))
    as (Hstr & _ & _ & Hrun & _).
  split; [exact Hstr | exact Hrun].
Defined.

(** ** The debouncer *)

Lemma debounce_spec_loop_reads window samples : forall k flag,
  (snd (debounce_spec_loop window samples k flag) <= k + window)%nat.
Proof.
  induction window as [| w IH]; intros k flag; cbn.
  - lia.
  - destruct (samples k); cbn; [lia |].
    specialize (IH (S k) false). lia.
Qed.

Lemma debounce_spec_early samples :
  fst (debounce_spec samples) = false ->
  exists k, (k < 32)%nat /\ samples k = true.
Proof.
  unfold debounce_spec.
  assert (H : forall window k flag,
    flag = false ->
    fst (debounce_spec_loop window samples k flag) = false ->
    exists j, (k <= j < k + window)%nat /\ samples j = true).
  { induction window as [| w IH]; intros k flag Hflag; cbn.
    - subst flag. discriminate.
    - destruct (samples k) eqn:Hk; cbn.
      + intros _. exists k. split; [lia | assumption].
      + intros Hr. destruct (IH (S k) false eq_refl Hr) as [j [Hj Hs]].
        exists j. split; [lia | assumption]. }
  intros Hr. destruct (H _ _ _ eq_refl Hr) as [j [Hj Hs]].
  exists j. split; [unfold _DEBOUNCE_SAMPLES in Hj; lia | assumption].
Qed.

(** [_debounce] reads the pin twice in each of its 32 steps. *)
Lemma _debounce_loop_reads iters button : forall k flag,
  (snd (_debounce_loop iters button k flag) <= k + 2 * iters)%nat.
Proof.
  induction iters as [| n IH]; intros k flag; cbn.
  - lia.
  - destruct (button (S k)); cbn; [lia |].
    specialize (IH (S (S k)) (button k)). lia.
Qed.

Lemma _debounce_reads button : (snd (_debounce button) <= 64)%nat.
Proof. apply (_debounce_loop_reads 32 button 0%nat false). Qed.

(** When the two reads of every step see the same level, [_debounce] is
    the specified debouncer run on the first read of each step. *)
Lemma _debounce_loop_stable iters button : forall k flag,
  (forall i, (i < iters)%nat ->
     button (S (2 * (k + i))) = button (2 * (k + i))%nat) ->
  _debounce_loop iters button (2 * k) flag
  = (fst (debounce_spec_loop iters (fun i => button (2 * i)%nat) k flag),
     (2 * snd (debounce_spec_loop iters (fun i => button (2 * i)%nat) k flag))%nat).
Proof.
  induction iters as [| n IH]; intros k flag Hst; cbn [_debounce_loop debounce_spec_loop].
  - reflexivity.
  - assert (H0 := Hst 0%nat ltac:(lia)).
    rewrite Nat.add_0_r in H0. rewrite H0.
    destruct (button (2 * k)%nat) eqn:Hb.
    + cbn [fst snd]. f_equal. lia.
    + replace (S (S (2 * k))) with (2 * S k)%nat by lia.
      apply IH. intros i Hi.
      replace (S k + i)%nat with (k + S i)%nat by lia.
      apply Hst. lia.
Qed.

Lemma _debounce_stable button :
  (forall i, (i < 32)%nat -> button (S (2 * i)) = button (2 * i)%nat) ->
  _debounce button
  = (fst (debounce_spec (fun i => button (2 * i)%nat)),
     (2 * snd (debounce_spec (fun i => button (2 * i)%nat)))%nat).
Proof.
  intros Hst. unfold _debounce, debounce_spec.
  apply (_debounce_loop_stable 32 button 0%nat false).
  intros i Hi. now apply Hst.
Qed.

(** What [_debounce] computes: the first step whose second read is high
    decides with the negation of that step's first read; without such a
    step the first read of the last step decides, after 64 reads. *)
Lemma _debounce_loop_early iters button : forall k flag j,
  (j < iters)%nat ->
  (forall i, (i < j)%nat -> button (S (k + 2 * i)) = false) ->
  button (S (k + 2 * j)) = true ->
  _debounce_loop iters button k flag
  = (negb (button (k + 2 * j)%nat), (k + 2 * j + 2)%nat).
Proof.
  induction iters as [| n IH]; intros k flag j Hj Hlow Hhigh; [lia |].
  cbn [_debounce_loop]. destruct j as [| j].
  - replace (k + 2 * 0)%nat with k in * by lia. rewrite Hhigh.
    f_equal. lia.
  - assert (H0 := Hlow 0%nat ltac:(lia)).
    replace (k + 2 * 0)%nat with k in H0 by lia. rewrite H0.
    rewrite (IH (S (S k)) (button k) j).
    + f_equal; [f_equal |]; f_equal; lia.
    + lia.
    + intros i Hi. specialize (Hlow (S i) ltac:(lia)).
      replace (S (S k) + 2 * i)%nat with (k + 2 * S i)%nat by lia. exact Hlow.
    + replace (S (S k) + 2 * j)%nat with (k + 2 * S j)%nat by lia. exact Hhigh.
Qed.

Lemma _debounce_loop_exhausted iters button : forall k flag,
  (forall i, (i < S iters)%nat -> button (S (k + 2 * i)) = false) ->
  _debounce_loop (S iters) button k flag
  = (negb (button (k + 2 * iters)%nat), (k + 2 * iters + 2)%nat).
Proof.
  induction iters as [| n IH]; intros k flag Hlow;
    assert (H0 := Hlow 0%nat ltac:(lia));
    replace (k + 2 * 0)%nat with k in H0 by lia.
  - cbn [_debounce_loop]. rewrite H0.
    replace (k + 2 * 0)%nat with k by lia. f_equal. lia.
  - remember (S n) as m eqn:Hm. cbn [_debounce_loop]. rewrite H0. subst m.
    rewrite IH.
    + replace (S (S k) + 2 * n)%nat with (k + 2 * S n)%nat by lia.
      reflexivity.
    + intros i Hi. specialize (Hlow (S i) ltac:(lia)).
      replace (S (S k) + 2 * i)%nat with (k + 2 * S i)%nat by lia. exact Hlow.
Qed.

Lemma _debounce_early button j :
  (j < 32)%nat ->
  (forall i, (i < j)%nat -> button (S (2 * i)) = false) ->
  button (S (2 * j)) = true ->
  _debounce button = (negb (button (2 * j)%nat), (2 * j + 2)%nat).
Proof.
  intros Hj Hlow Hhigh. unfold _debounce.
  apply (_debounce_loop_early 32 button 0%nat false j Hj Hlow Hhigh).
Qed.

Lemma _debounce_exhausted button :
  (forall i, (i < 32)%nat -> button (S (2 * i)) = false) ->
  _debounce button = (negb (button 62%nat), 64%nat).
Proof.
  intros Hlow. unfold _debounce.
  change _DEBOUNCE_SAMPLES with (S 31).
  apply (_debounce_loop_exhausted 31 button 0%nat false).
  intros i Hi. apply (Hlow i). lia.
Qed.

(** C3 (the code at inputs where it leaves the claim): the level is
    read twice per step, up to 64 times; a high level seen by the second
    read of a step returns the negation of the step's first read, so
    low-then-high confirms the press; a high level seen only by a first
    read is passed over; and when the window runs out the result negates
    the last first read, not the last level sampled. *)
Theorem debounce_double_read :
  _debounce (fun k => Nat.eqb k 1) = (true, 2%nat)
  /\ debounce_spec (fun k => Nat.eqb k 1) = (false, 2%nat)
  /\ _debounce (fun k => Nat.eqb k 0) = (true, 64%nat)
  /\ debounce_spec (fun k => Nat.eqb k 0) = (false, 1%nat)
  /\ _debounce (fun _ => false) = (true, 64%nat)
  /\ debounce_spec (fun _ => false) = (true, 32%nat)
  /\ _debounce (fun k => Nat.eqb k 62) = (false, 64%nat).
Proof. repeat split. Qed.

(** ** The beeper timers *)

Lemma play_note_timers freq duration s :
  Starter.play_note freq duration s
  = Return tt (set_timers (<[0 := duration_cfg duration]>
                             (<[2 := tone_cfg freq]> (timers s))) s).
Proof. reflexivity. Qed.

Lemma fire_duration_timer freq duration s :
  fire 0 (final_state (Starter.play_note freq duration s))
  = Return tt (set_timers (delete 2 (delete 0
                 (<[0 := duration_cfg duration]>
                    (<[2 := tone_cfg freq]> (timers s))))) s).
Proof.
  rewrite play_note_timers. cbn [final_state]. unfold fire.
  cbn [timers set_timers]. rewrite lookup_insert_eq. reflexivity.
Qed.

(** C7 (the code at an input where it leaves the claim): the one-shot
    timer armed by [play_note] disarms the tone timer when it fires, but
    it does not drive the beeper pin: the pin keeps the level of the last
    toggle, so after an odd number of toggles it is not at the level it
    idled at, whereas [stop_note] of atlas.py also drives the pin to its
    idle level 1. *)
Theorem duration_timer_leaves_pin (freq : Q) (duration : Z) (s : Atlas) :
  let s1 := final_state (Starter.play_note freq duration s) in
  let s2 := final_state (fire 2 s1) in
  let s3 := final_state (fire 0 s2) in
  timers s1 !! 2 = Some (tone_cfg freq)
  /\ timers s1 !! 0 = Some (duration_cfg duration)
  /\ beeper s2 = negb (beeper s)
  /\ timers s3 !! 2 = None
  /\ timers s3 !! 0 = None
  /\ beeper s3 = negb (beeper s)
  /\ beeper (final_state (fire 0 s1)) = beeper s
  /\ beeper (final_state (Kit.stop_note s2)) = true
  /\ timers (final_state (Kit.stop_note s2)) !! 2 = None.
Proof.
  intros s1 s2 s3.
  assert (H2 : timers s1 !! 2 = Some (tone_cfg freq)).
  { subst s1. rewrite play_note_timers. cbn [final_state timers set_timers].
    rewrite lookup_insert_ne by lia. apply lookup_insert_eq. }
  assert (H0 : timers s1 !! 0 = Some (duration_cfg duration)).
  { subst s1. rewrite play_note_timers. cbn [final_state timers set_timers].
    apply lookup_insert_eq. }
  assert (Hs2 : s2 = set_beeper (negb (beeper s1)) s1).
  { subst s2. unfold fire. rewrite H2. reflexivity. }
  assert (Hs3 : s3 = set_timers (delete 2 (delete 0 (timers s2))) s2).
  { subst s3. unfold fire.
    replace (timers s2 !! 0) with (Some (duration_cfg duration))
      by (rewrite Hs2; symmetry; exact H0).
    reflexivity. }
  split; [exact H2 |]. split; [exact H0 |].
  split; [now rewrite Hs2 |].
  split; [rewrite Hs3; cbn [timers set_timers]; apply lookup_delete_eq |].
  split; [rewrite Hs3; cbn [timers set_timers];
          rewrite lookup_delete_ne by lia; apply lookup_delete_eq |].
  split; [now rewrite Hs3, Hs2 |].
  split; [subst s1; now rewrite fire_duration_timer |].
  split; [reflexivity |].
  cbn. apply lookup_delete_eq.
Qed.

(** The run on the pin idling high: one toggle, then the duration timer
    fires. *)
Lemma duration_timer_leaves_pin_low :
  let idle := set_beeper true blank in
  beeper (final_state ((Starter.play_note (440 # 1) 500 ;; fire 2 ;; fire 0) idle))
  = false.
Proof. reflexivity. Qed.

(** [play_note] on top of a [play_note] is the second [play_note] alone:
    hardware timers 0 and 2 are reprogrammed. *)
Lemma play_note_supersedes f1 d1 f2 d2 s :
  Starter.play_note f2 d2 (final_state (Starter.play_note f1 d1 s))
  = Starter.play_note f2 d2 s.
Proof.
  rewrite !play_note_timers. cbn [final_state timers set_timers].
  unfold set_timers; cbn. do 2 f_equal.
  rewrite (insert_insert_ne _ 2 0) by lia.
  now rewrite !insert_insert_eq.
Qed.

Lemma play_song_cons note rest s :
  Starter.play_song (note :: rest) s
  = Starter.play_song rest
      (final_state (Starter.play_note (fst note) (snd note) s)).
Proof. reflexivity. Qed.

Lemma play_song_returns notes : forall s,
  raised (Starter.play_song notes s) = false.
Proof.
  induction notes as [| note rest IH]; intros s; [reflexivity |].
  rewrite play_song_cons. apply IH.
Qed.

Lemma play_song_last_wins notes : forall note s,
  Starter.play_song (note :: notes) s
  = Starter.play_note (fst (last_note note notes)) (snd (last_note note notes)) s.
Proof.
  induction notes as [| n2 rest IH]; intros note s.
  - reflexivity.
  - rewrite play_song_cons, IH.
    change (last_note note (n2 :: rest)) with (last_note n2 rest).
    apply play_note_supersedes.
Qed.

(** C8 (the code at an input where it leaves the claim): [play_song]
    issues the notes in order, but [play_note] only programs the timers
    and returns, so the next [play_note] is issued while the tone of the
    note before is still armed and its duration timer has not fired; a
    song ends with the timers of its last note only. *)
Theorem play_song_does_not_wait (n1 n2 : Q * Z) (rest : list (Q * Z)) (s : Atlas) :
  let s1 := final_state (Starter.play_note (fst n1) (snd n1) s) in
  Starter.play_song (n1 :: n2 :: rest) s
  = Starter.play_song rest (final_state (Starter.play_note (fst n2) (snd n2) s1))
  /\ timers s1 !! 2 = Some (tone_cfg (fst n1))
  /\ timers s1 !! 0 = Some (duration_cfg (snd n1))
  /\ Starter.play_song (n1 :: n2 :: rest) s
     = Starter.play_note (fst (last_note n2 rest)) (snd (last_note n2 rest)) s
  /\ Starter.play_song [ (196 # 1, 800) ; (220 # 1, 800) ] blank
     = Starter.play_note (220 # 1) 800 blank.
Proof.
  intros s1.
  split; [reflexivity |].
  split; [subst s1; rewrite play_note_timers; cbn [final_state timers set_timers];
          rewrite lookup_insert_ne by lia; apply lookup_insert_eq |].
  split; [subst s1; rewrite play_note_timers; cbn [final_state timers set_timers];
          apply lookup_insert_eq |].
  split; [apply (play_song_last_wins (n2 :: rest) n1 s) |].
  apply (play_song_last_wins [ (220 # 1, 800) ] (196 # 1, 800) blank).
Qed.

(** ** The stored mask stays in range *)

Lemma write_num_dp_ok value dp s :
  dp_ok s -> dp_ok (final_state (write_num value dp s)).
Proof.
  intros Hs.
  destruct (Z_le_gt_dec _MIN_VALUE_DP dp); [destruct (Z_le_gt_dec dp _MAX_VALUE_DP) |].
  - destruct (Z_lt_ge_dec value _MIN_VALUE_DEC).
    + now rewrite write_num_out_of_range by bounds.
    + destruct (Z_lt_ge_dec value 0).
      * rewrite write_num_negative by bounds.
        unfold dp_ok. cbn [final_state]. rewrite sent_current_dp.
        unfold set_current_dp; cbn [current_dp]. bounds.
      * destruct (Z_le_gt_dec value _MAX_VALUE_DEC).
        -- rewrite write_num_nonneg by bounds.
           unfold dp_ok. cbn [final_state]. rewrite sent_current_dp.
           unfold set_current_dp; cbn [current_dp]. bounds.
        -- now rewrite write_num_out_of_range by bounds.
  - now rewrite write_num_out_of_range by bounds.
  - now rewrite write_num_out_of_range by bounds.
Qed.

Lemma write_hex_dp_ok value s :
  dp_ok s -> dp_ok (final_state (Starter.write_hex value s)).
Proof.
  intros Hs.
  destruct (Z_lt_ge_dec value 0); [| destruct (Z_le_gt_dec value _MAX_VALUE_HEX)].
  - now rewrite write_hex_out_of_range by bounds.
  - now rewrite write_hex_in_range by bounds.
  - now rewrite write_hex_out_of_range by bounds.
Qed.

Lemma increment_num_dp_ok hex s :
  dp_ok s -> dp_ok (final_state (Starter.increment_num hex s)).
Proof.
  intros Hs. destruct (current_num s) as [n |] eqn:Hn.
  - rewrite (increment_num_step hex n s Hn). cbv zeta.
    destruct hex; destruct (n + 1 >? _);
      [apply write_hex_dp_ok | apply write_hex_dp_ok
       | apply write_num_dp_ok | apply write_num_dp_ok]; exact Hs.
  - now rewrite increment_num_blank.
Qed.

Lemma decrement_num_dp_ok hex s :
  dp_ok s -> dp_ok (final_state (Starter.decrement_num hex s)).
Proof.
  intros Hs. destruct (current_num s) as [n |] eqn:Hn.
  - rewrite (decrement_num_step hex n s Hn). cbv zeta.
    destruct hex; destruct (n - 1 <? _);
      [apply write_hex_dp_ok | apply write_hex_dp_ok
       | apply write_num_dp_ok | apply write_num_dp_ok]; exact Hs.
  - now rewrite decrement_num_blank.
Qed.

Lemma init_dp_ok s :
  dp_ok (final_state (Kit.__init__ s))
  /\ dp_ok (final_state (Starter.__init__ s))
  /\ current_num (final_state (Kit.__init__ s)) = None
  /\ current_num (final_state (Starter.__init__ s)) = None.
Proof.
  assert (Hkit : current_dp (final_state (Kit.__init__ s)) = 0) by reflexivity.
  assert (Hst : current_dp (final_state (Starter.__init__ s)) = 0) by reflexivity.
  unfold dp_ok. rewrite Hkit, Hst.
  split; [bounds |]. split; [bounds |]. split; reflexivity.
Qed.

Lemma update_clock24_dp_ok s :
  dp_ok s -> dp_ok (final_state (Starter._update_clock24 s)).
Proof.
  intros Hs. unfold Starter._update_clock24.
  erewrite bind_Return by reflexivity.
  unfold Starter.int.
  destruct (NilZero.int_of_string (Starter.time_str (rtc s))) as [d |].
  - erewrite bind_Return by reflexivity. now apply write_num_dp_ok.
  - exact Hs.
Qed.

Lemma play_song_dp_ok notes : forall s,
  dp_ok s -> dp_ok (final_state (Starter.play_song notes s)).
Proof.
  induction notes as [| note rest IH]; intros s Hs; [exact Hs |].
  rewrite play_song_cons. apply IH. exact Hs.
Qed.

Lemma fire_dp_ok id s : dp_ok s -> dp_ok (final_state (fire id s)).
Proof.
  intros Hs. unfold fire.
  destruct (timers s !! id) as [[rate mode cb] |]; [| exact Hs].
  destruct mode, cb; cbn [t_mode t_callback]; try exact Hs.
  - apply (update_clock24_dp_ok (set_timers (delete id (timers s)) s)). exact Hs.
  - now apply update_clock24_dp_ok.
Qed.

Lemma step_dp_ok s s' : step s s' -> dp_ok s -> dp_ok s'.
Proof.
  intros Hstep Hs. destruct Hstep.
  - unfold display_brightness.
    destruct ((0 <=? value) && (value <=? 15)); exact Hs.
  - exact Hs.
  - now apply write_num_dp_ok.
  - now apply write_hex_dp_ok.
  - now apply increment_num_dp_ok.
  - now apply decrement_num_dp_ok.
  - exact Hs.
  - exact Hs.
  - exact Hs.
  - now apply play_song_dp_ok.
  - exact Hs.
  - unfold Kit.mode_button_callback.
    destruct (fst (_debounce button)); exact Hs.
  - unfold Kit.incr_button_callback.
    destruct (fst (_debounce button)); [| exact Hs].
    rewrite Kit_increment_num. now apply increment_num_dp_ok.
  - unfold Kit.decr_button_callback.
    destruct (fst (_debounce button)); [| exact Hs].
    rewrite Kit_decrement_num. now apply decrement_num_dp_ok.
  - now apply fire_dp_ok.
  - exact Hs.
  - exact Hs.
  - unfold Starter.mode_button_callback.
    destruct (fst (_debounce button)); exact Hs.
  - unfold Starter.incr_button_callback.
    destruct (fst (_debounce button)); exact Hs.
  - unfold Starter.decr_button_callback.
    destruct (fst (_debounce button)); exact Hs.
Qed.

(** Every state of a constructed driver keeps the stored mask within
    its six bits. *)
Lemma reachable_dp_ok s : reachable s -> dp_ok s.
Proof.
  induction 1 as [s0 | s0 | s s' _ IH Hstep].
  - apply (init_dp_ok s0).
  - apply (init_dp_ok s0).
  - exact (step_dp_ok s s' Hstep IH).
Qed.


(** * The rest of the driver *)

(** ** The three ways [write_num] and the two ways [write_hex] end *)

Lemma write_num_cases value dp s :
  (0 <= value <= _MAX_VALUE_DEC /\ _MIN_VALUE_DP <= dp <= _MAX_VALUE_DP
   /\ write_num value dp s
      = Return tt (sent ((_DECODE_MODE, 0xFF) :: map (digit_frame value dp) (range 6))
                        (set_current_dp dp (set_current_num (Some value) s))))
  \/ (_MIN_VALUE_DEC <= value < 0 /\ _MIN_VALUE_DP <= dp <= _MAX_VALUE_DP
      /\ write_num value dp s
         = Return tt (sent ((_DECODE_MODE, 0xFF) :: (_DIGIT5, 0xA)
                              :: map (digit_frame (- value) dp) (range 5))
                           (set_current_dp dp (set_current_num (Some value) s))))
  \/ ((value > _MAX_VALUE_DEC \/ value < _MIN_VALUE_DEC
       \/ dp < _MIN_VALUE_DP \/ dp > _MAX_VALUE_DP)
      /\ write_num value dp s
         = Raise (ValueError "Value out of range") (sent [(_DECODE_MODE, 0xFF)] s)).
Proof.
  destruct (Z_le_gt_dec _MIN_VALUE_DP dp) as [Hlo | Hlo];
    [destruct (Z_le_gt_dec dp _MAX_VALUE_DP) as [Hhi | Hhi] |].
  - destruct (Z_lt_ge_dec value _MIN_VALUE_DEC) as [Hmin | Hmin].
    + right; right. split; [lia | apply write_num_out_of_range; lia].
    + destruct (Z_lt_ge_dec value 0) as [Hneg | Hneg].
      * right; left. repeat split; try lia. apply write_num_negative; lia.
      * destruct (Z_le_gt_dec value _MAX_VALUE_DEC) as [Hmax | Hmax].
        -- left. repeat split; try lia. apply write_num_nonneg; lia.
        -- right; right. split; [lia | apply write_num_out_of_range; lia].
  - right; right. split; [lia | apply write_num_out_of_range; lia].
  - right; right. split; [lia | apply write_num_out_of_range; lia].
Qed.

Lemma write_hex_cases value s :
  (0 <= value <= _MAX_VALUE_HEX
   /\ Starter.write_hex value s
      = Return tt (sent ((_DECODE_MODE, 0x0) :: hex_frames (range 6) value)
                        (set_current_num (Some value) s)))
  \/ ((value < 0 \/ value > _MAX_VALUE_HEX)
      /\ Starter.write_hex value s
         = Raise (ValueError "Value out of range") (sent [(_DECODE_MODE, 0x0)] s)).
Proof.
  destruct (Z_lt_ge_dec value 0) as [Hneg | Hneg];
    [| destruct (Z_le_gt_dec value _MAX_VALUE_HEX) as [Hmax | Hmax]].
  - right. split; [lia | apply write_hex_out_of_range; lia].
  - left. split; [lia | apply write_hex_in_range; lia].
  - right. split; [lia | apply write_hex_out_of_range; lia].
Qed.

(** ** The registers behind the bus *)

Lemma registers_app frames more :
  registers (frames ++ more)
  = foldl write_register (registers frames) more.
Proof. unfold registers. apply foldl_app. Qed.

Lemma registers_sent frames s :
  registers (bus (sent frames s))
  = foldl write_register (registers (bus s)) frames.
Proof. rewrite sent_bus. apply registers_app. Qed.

Lemma range_6 : range 6 = [0; 1; 2; 3; 4; 5].
Proof. reflexivity. Qed.

Lemma range_5 : range 5 = [0; 1; 2; 3; 4].
Proof. reflexivity. Qed.

Lemma index_cases_6 i :
  0 <= i < 6 -> i = 0 \/ i = 1 \/ i = 2 \/ i = 3 \/ i = 4 \/ i = 5.
Proof. lia. Qed.

(** The registers after seven frames to the registers 9, 1, ..., 6. *)
Lemma registers_display (regs : gmap Z Z) d0 d1 d2 d3 d4 d5 mode :
  let regs' :=
    foldl write_register regs
      [(_DECODE_MODE, mode); (1, d0); (2, d1); (3, d2); (4, d3); (5, d4); (6, d5)] in
  regs' !! _DECODE_MODE = Some mode
  /\ regs' !! 1 = Some d0 /\ regs' !! 2 = Some d1 /\ regs' !! 3 = Some d2
  /\ regs' !! 4 = Some d3 /\ regs' !! 5 = Some d4 /\ regs' !! 6 = Some d5
  /\ (forall r, r <> _DECODE_MODE -> ~ 1 <= r <= 6 -> regs' !! r = regs !! r).
Proof.
  intros regs'. subst regs'. cbn [foldl]. unfold write_register, _DECODE_MODE.
  cbn [fst snd].
  repeat split; try (now simplify_map_eq).
  intros r Hr Hout. rewrite !lookup_insert_ne by lia. reflexivity.
Qed.

(** ** Decimal writes seen from the registers *)

(** X1: after [write_num] of a value in [0, 999999] the decode-mode
    register holds 0xFF and the digit registers 1..6 hold the six digit
    frames of the value, whatever was sent before; read from the
    registers, the display shows the value, and no other register is
    touched. *)
Theorem write_num_registers (value dp : Z) (s : Atlas) :
  0 <= value <= 999999 ->
  0 <= dp <= 63 ->
  let regs := registers (bus (final_state (write_num value dp s))) in
  regs !! _DECODE_MODE = Some 0xFF
  /\ (forall i, 0 <= i < 6 ->
        regs !! (i + 1) = Some (snd (digit_frame value dp i)))
  /\ read_back (map (fun i => (i + 1, default 0 (regs !! (i + 1)))) (range 6))
     = value
  /\ (forall r, r <> _DECODE_MODE -> ~ 1 <= r <= 6 ->
        regs !! r = registers (bus s) !! r).
Proof.
  intros Hv Hdp regs. subst regs.
  rewrite write_num_nonneg by bounds. cbn [final_state].
  rewrite registers_sent.
  change (bus (set_current_dp dp (set_current_num (Some value) s))) with (bus s).
  destruct (registers_display (registers (bus s))
              (snd (digit_frame value dp 0)) (snd (digit_frame value dp 1))
              (snd (digit_frame value dp 2)) (snd (digit_frame value dp 3))
              (snd (digit_frame value dp 4)) (snd (digit_frame value dp 5)) 255)
    as (H9 & H1 & H2 & H3 & H4 & H5 & H6 & Hrest).
  rewrite range_6. cbn [map].
  set (regs := foldl write_register (registers (bus s)) _) in *.
  assert (Hdigits : forall i, 0 <= i < 6 ->
            regs !! (i + 1) = Some (snd (digit_frame value dp i))).
  { intros i Hi. apply index_cases_6 in Hi.
    destruct Hi as [-> | [-> | [-> | [-> | [-> | ->]]]]]; assumption. }
  split; [exact H9 |]. split; [exact Hdigits |]. split; [| exact Hrest].
  rewrite !Hdigits by lia. cbn [default].
  change (read_back (map (digit_frame value dp) (range 6)) = value).
  apply read_back_range. change (10 ^ Z.of_nat 6) with 1000000. lia.
Qed.

Lemma write_num_registers_witness :
  registers (bus (final_state (write_num 123 2
     (final_state (write_num 999999 63 blank))))) !! 6 = Some 0.
Proof.
  destruct (write_num_registers 123 2 (final_state (write_num 999999 63 blank))
              ltac:(lia) ltac:(lia)) as (_ & Hdigits & _).
  exact (Hdigits 5 ltac:(lia)).
Defined.

(** X2: after [write_num] of a value in [-99999, -1] register 6 holds
    the minus glyph 0xA, the registers 1..5 hold the five digit frames
    of [abs value], and the decode-mode register holds 0xFF, whatever
    was sent before. *)
Theorem write_num_negative_registers (value dp : Z) (s : Atlas) :
  -99999 <= value <= -1 ->
  0 <= dp <= 63 ->
  let regs := registers (bus (final_state (write_num value dp s))) in
  regs !! _DECODE_MODE = Some 0xFF
  /\ regs !! _DIGIT5 = Some 0xA
  /\ (forall i, 0 <= i < 5 ->
        regs !! (i + 1) = Some (snd (digit_frame (Z.abs value) dp i)))
  /\ read_back (map (fun i => (i + 1, default 0 (regs !! (i + 1)))) (range 5))
     = Z.abs value.
Proof.
  intros Hv Hdp regs. subst regs.
  replace (Z.abs value) with (- value) by lia.
  rewrite write_num_negative by bounds. cbn [final_state].
  rewrite registers_sent.
  change (bus (set_current_dp dp (set_current_num (Some value) s))) with (bus s).
  rewrite range_5. cbn [map foldl].
  set (regs0 := write_register (registers (bus s)) (_DECODE_MODE, 255)).
  unfold write_register, _DIGIT5, digit_frame. cbn [fst snd Z.add Pos.add Pos.succ].
  assert (H9 : regs0 !! _DECODE_MODE = Some 255).
  { subst regs0. unfold write_register, _DECODE_MODE. cbn [fst snd].
    apply lookup_insert_eq. }
  unfold _DECODE_MODE in *.
  split; [now simplify_map_eq |]. split; [now simplify_map_eq |].
  assert (Hdigits : forall i, 0 <= i < 5 ->
    <[5:=snd (digit_frame (- value) dp 4)]>
      (<[4:=snd (digit_frame (- value) dp 3)]>
         (<[3:=snd (digit_frame (- value) dp 2)]>
            (<[2:=snd (digit_frame (- value) dp 1)]>
               (<[1:=snd (digit_frame (- value) dp 0)]>
                  (<[6:=10]> regs0))))) !! (i + 1)
    = Some (snd (digit_frame (- value) dp i))).
  { intros i Hi.
    assert (i = 0 \/ i = 1 \/ i = 2 \/ i = 3 \/ i = 4) as Hc by lia.
    destruct Hc as [-> | [-> | [-> | [-> | ->]]]]; now simplify_map_eq. }
  split; [exact Hdigits |].
  unfold digit_frame in Hdigits. cbn [snd] in Hdigits.
  rewrite !Hdigits by lia. cbn [default].
  change (read_back (map (digit_frame (- value) dp) (range 5)) = - value).
  apply read_back_range. change (10 ^ Z.of_nat 5) with 100000. lia.
Qed.

Lemma write_num_negative_registers_witness :
  registers (bus (final_state (write_num (-45) 0
     (final_state (write_num 999999 63 blank))))) !! 6 = Some 10.
Proof.
  destruct (write_num_negative_registers (-45) 0
              (final_state (write_num 999999 63 blank))
              ltac:(lia) ltac:(lia)) as (_ & Hsign & _).
  exact Hsign.
Defined.

Lemma digit_frame_mask_low value dp i :
  0 <= i < 5 -> digit_frame value (dp mod 32) i = digit_frame value dp i.
Proof.
  intros Hi. unfold digit_frame.
  change 32 with (2 ^ 5). now rewrite Z.mod_pow2_bits_low by lia.
Qed.

(** X3: for a negative value the mask bit of position 5 is stored but
    not shown: [write_num value dp] sends the frames of
    [write_num value (dp mod 32)] and stores [dp]; the bit appears when
    [increment_num] takes -1 to 0. *)
Theorem write_num_negative_mask_bit5 (value dp : Z) (s : Atlas) :
  -99999 <= value <= -1 ->
  0 <= dp <= 63 ->
  let s' := final_state (write_num value dp s) in
  bus s' = bus (final_state (write_num value (dp mod 32) s))
  /\ current_dp s' = dp
  /\ (value = -1 -> Z.testbit dp 5 = true ->
      registers (bus s') !! _DIGIT5 = Some 0xA
      /\ registers (bus (final_state (Starter.increment_num false s'))) !! _DIGIT5
         = Some 0x80).
Proof.
  intros Hv Hdp s'.
  assert (Hlow : 0 <= dp mod 32 <= 63)
    by (pose proof (Z.mod_pos_bound dp 32); lia).
  assert (Hrun := write_num_negative value dp s ltac:(bounds) ltac:(bounds)).
  assert (Hrun32 := write_num_negative value (dp mod 32) s
                      ltac:(bounds) ltac:(bounds)).
  assert (Hnum : current_num s' = Some value)
    by (subst s'; now rewrite Hrun).
  assert (Hcur : current_dp s' = dp) by (subst s'; now rewrite Hrun).
  split; [| split; [exact Hcur |]].
  - subst s'. rewrite Hrun, Hrun32. cbn [final_state]. rewrite !sent_bus.
    change (bus (set_current_dp ?d (set_current_num ?n s))) with (bus s).
    do 3 f_equal. apply map_ext_in. intros i Hi.
    apply range_bounds in Hi. symmetry. apply digit_frame_mask_low. lia.
  - intros Hone Hbit. split.
    + apply (write_num_negative_registers value dp s Hv Hdp).
    + subst value.
      rewrite (increment_num_step false (-1) s' Hnum). cbv zeta.
      change (-1 + 1 >? _MAX_VALUE_DEC) with false. cbv iota.
      rewrite Hcur. change (-1 + 1) with 0.
      destruct (write_num_registers 0 dp s' ltac:(lia) Hdp) as (_ & Hdigits & _).
      pose proof (Hdigits 5 ltac:(lia)) as H5.
      change (5 + 1) with _DIGIT5 in H5. rewrite H5.
      unfold digit_frame. cbn [snd]. now rewrite Hbit.
Qed.

Lemma write_num_negative_mask_bit5_witness :
  bus (final_state (write_num (-7) 32 blank))
  = bus (final_state (write_num (-7) 0 blank))
  /\ current_dp (final_state (write_num (-7) 32 blank)) = 32.
Proof.
  destruct (write_num_negative_mask_bit5 (-7) 32 blank ltac:(lia) ltac:(lia))
    as (Hbus & Hdp & _).
  split; [exact Hbus | exact Hdp].
Defined.

(** ** Hexadecimal writes *)

Lemma hex_of_seg_lookup k :
  0 <= k < 16 -> hex_of_seg (default 0 (_HEX_TO_SEG !! k)) = Some k.
Proof.
  intros H.
  assert (k = 0 \/ k = 1 \/ k = 2 \/ k = 3 \/ k = 4 \/ k = 5 \/ k = 6 \/ k = 7
          \/ k = 8 \/ k = 9 \/ k = 10 \/ k = 11 \/ k = 12 \/ k = 13 \/ k = 14
          \/ k = 15) as Hk by lia.
  repeat (destruct Hk as [-> | Hk]; [vm_compute; reflexivity |]).
  subst k. vm_compute. reflexivity.
Qed.

Lemma read_back_hex_frames idxs : forall value,
  read_back_hex (hex_frames idxs value)
  = Some (value mod 16 ^ Z.of_nat (length idxs)).
Proof.
  induction idxs as [| i rest IH]; intros value.
  - cbn. now rewrite Z.mod_1_r.
  - cbn [hex_frames read_back_hex snd length].
    rewrite hex_of_seg_lookup by (apply Z.mod_pos_bound; lia).
    rewrite IH. f_equal.
    rewrite Nat2Z.inj_succ, Z.pow_succ_r by lia.
    now rewrite Z.rem_mul_r by lia.
Qed.

Lemma hex_frames_closed n : forall a value,
  hex_frames (map Z.of_nat (seq a n)) (value / 16 ^ Z.of_nat a)
  = map (fun i => (i + 1, default 0 (_HEX_TO_SEG !! ((value / 16 ^ i) mod 16))))
        (map Z.of_nat (seq a n)).
Proof.
  induction n as [| n IH]; intros a value; [reflexivity |].
  cbn [seq map hex_frames]. f_equal.
  rewrite <- IH. f_equal.
  rewrite Z.div_div by lia.
  f_equal. rewrite Nat2Z.inj_succ, Z.pow_succ_r by lia. lia.
Qed.

Lemma hex_frames_range n value :
  hex_frames (range n) value
  = map (fun i => (i + 1, default 0 (_HEX_TO_SEG !! ((value / 16 ^ i) mod 16))))
        (range n).
Proof.
  unfold range. rewrite <- hex_frames_closed.
  now rewrite Z.pow_0_r, Z.div_1_r.
Qed.

(** X4: for a value in [0, 0xFFFFFF] [write_hex] switches the
    controller to raw segments (decode mode 0) and sends six frames to
    the registers 1..6; frame [i] carries the segment pattern
    [_HEX_TO_SEG[(value / 16^i) mod 16]], and the patterns decode back
    to the value. *)
Theorem write_hex_round_trip (value : Z) (s : Atlas) :
  0 <= value <= 0xFFFFFF ->
  let frames := hex_frames (range 6) value in
  Starter.write_hex value s
  = Return tt (sent ((_DECODE_MODE, 0x0) :: frames)
                    (set_current_num (Some value) s))
  /\ map fst frames = [_DIGIT0; _DIGIT1; _DIGIT2; _DIGIT3; _DIGIT4; _DIGIT5]
  /\ (forall i, 0 <= i < 6 ->
        snd <$> frames !! Z.to_nat i
        = _HEX_TO_SEG !! ((value / 16 ^ i) mod 16))
  /\ read_back_hex frames = Some value
  /\ registers (bus (final_state (Starter.write_hex value s))) !! _DECODE_MODE
     = Some 0x0.
Proof.
  intros Hv frames.
  assert (Hrun := write_hex_in_range value s ltac:(bounds)).
  split; [exact Hrun |]. split; [reflexivity |]. split; [| split].
  - intros i Hi. subst frames. rewrite hex_frames_range.
    rewrite (hex_to_seg_lookup ((value / 16 ^ i) mod 16))
      by (apply Z.mod_pos_bound; lia).
    apply index_cases_6 in Hi.
    destruct Hi as [-> | [-> | [-> | [-> | [-> | ->]]]]]; reflexivity.
  - subst frames. rewrite read_back_hex_frames.
    change (16 ^ Z.of_nat (length (range 6))) with 16777216.
    f_equal. apply Z.mod_small. lia.
  - rewrite Hrun. cbn [final_state]. rewrite registers_sent.
    subst frames. rewrite hex_frames_range, range_6. cbn [map].
    apply (registers_display (registers (bus (set_current_num (Some value) s)))).
Qed.

Lemma write_hex_round_trip_witness :
  read_back_hex (hex_frames (range 6) 0xC0FFEE) = Some 0xC0FFEE
  /\ Starter.write_hex 0xC0FFEE blank
     = Return tt (sent [(9, 0); (1, 79); (2, 79); (3, 71); (4, 71); (5, 126);
                        (6, 78)]
                       (set_current_num (Some 0xC0FFEE) blank)).
Proof.
  destruct (write_hex_round_trip 0xC0FFEE blank ltac:(lia))
    as (Hrun & _ & _ & Hback & _).
  split; [exact Hback | exact Hrun].
Defined.

(** X5: [write_hex] of a value below 0 or above 0xFFFFFF raises
    [ValueError] with the stored number and mask unchanged and without
    a digit frame, but it has already set the decode-mode register to
    0: the digit registers keep their contents and are now read as raw
    segments. *)
Theorem write_hex_out_of_bounds (value : Z) (s : Atlas) :
  value < 0 \/ value > 0xFFFFFF ->
  let s' := final_state (Starter.write_hex value s) in
  Starter.write_hex value s
  = Raise (ValueError "Value out of range") (sent [(_DECODE_MODE, 0x0)] s)
  /\ current_num s' = current_num s
  /\ current_dp s' = current_dp s
  /\ registers (bus s') !! _DECODE_MODE = Some 0x0
  /\ (forall r, r <> _DECODE_MODE ->
        registers (bus s') !! r = registers (bus s) !! r).
Proof.
  intros Hv s'. subst s'.
  rewrite write_hex_out_of_range by bounds. cbn [final_state].
  rewrite registers_sent. cbn [foldl]. unfold write_register. cbn [fst snd].
  split; [reflexivity |]. split; [reflexivity |]. split; [reflexivity |].
  split; [apply lookup_insert_eq |].
  intros r Hr. now rewrite lookup_insert_ne by congruence.
Qed.

Lemma write_hex_out_of_bounds_witness :
  Starter.write_hex (-1) (final_state (write_num 42 0 blank))
  = Raise (ValueError "Value out of range")
          (sent [(_DECODE_MODE, 0x0)] (final_state (write_num 42 0 blank)))
  /\ current_num (final_state
       (Starter.write_hex (-1) (final_state (write_num 42 0 blank)))) = Some 42.
Proof.
  destruct (write_hex_out_of_bounds (-1) (final_state (write_num 42 0 blank))
              ltac:(lia)) as (Hrun & Hnum & _).
  split; [exact Hrun | exact Hnum].
Defined.

(** X6: a rejected [write_num] after a [write_hex] leaves the stored
    number and the segment patterns of the hexadecimal value in the
    digit registers, with the decode-mode register back at 0xFF: the
    controller now reads those patterns as code-B digits. *)
Theorem write_num_rejected_after_write_hex (hexval value dp : Z) (s : Atlas) :
  0 <= hexval <= 0xFFFFFF ->
  value > 999999 \/ value < -99999 \/ dp < 0 \/ dp > 63 ->
  let s1 := final_state (Starter.write_hex hexval s) in
  let s2 := final_state (write_num value dp s1) in
  raised (write_num value dp s1) = true
  /\ current_num s2 = Some hexval
  /\ registers (bus s1) !! _DECODE_MODE = Some 0x0
  /\ registers (bus s2) !! _DECODE_MODE = Some 0xFF
  /\ (forall i, 0 <= i < 6 ->
        registers (bus s2) !! (i + 1)
        = _HEX_TO_SEG !! ((hexval / 16 ^ i) mod 16)).
Proof.
  intros Hh Hbad s1 s2.
  assert (Hrun1 := write_hex_in_range hexval s ltac:(bounds)).
  assert (Hrun2 := write_num_out_of_range value dp s1 ltac:(bounds)).
  assert (Hbus1 : bus s1 = bus s ++ (_DECODE_MODE, 0)
            :: map (fun i => (i + 1,
                     default 0 (_HEX_TO_SEG !! ((hexval / 16 ^ i) mod 16))))
                   (range 6)).
  { subst s1. rewrite Hrun1. cbn [final_state]. rewrite sent_bus.
    now rewrite hex_frames_range. }
  assert (Hbus2 : bus s2 = bus s1 ++ [(_DECODE_MODE, 255)]).
  { subst s2. rewrite Hrun2. reflexivity. }
  destruct (registers_display (registers (bus s))
    (default 0 (_HEX_TO_SEG !! ((hexval / 16 ^ 0) mod 16)))
    (default 0 (_HEX_TO_SEG !! ((hexval / 16 ^ 1) mod 16)))
    (default 0 (_HEX_TO_SEG !! ((hexval / 16 ^ 2) mod 16)))
    (default 0 (_HEX_TO_SEG !! ((hexval / 16 ^ 3) mod 16)))
    (default 0 (_HEX_TO_SEG !! ((hexval / 16 ^ 4) mod 16)))
    (default 0 (_HEX_TO_SEG !! ((hexval / 16 ^ 5) mod 16))) 0)
    as (H9 & H1 & H2 & H3 & H4 & H5 & H6 & _).
  assert (Hregs1 : registers (bus s1)
    = foldl write_register (registers (bus s))
        ((_DECODE_MODE, 0)
           :: map (fun i => (i + 1,
                    default 0 (_HEX_TO_SEG !! ((hexval / 16 ^ i) mod 16))))
                  (range 6)))
    by (rewrite Hbus1; apply registers_app).
  rewrite range_6 in Hregs1. cbn [map] in Hregs1.
  split; [subst s2; now rewrite Hrun2 |].
  split; [subst s2 s1; now rewrite Hrun2, Hrun1 |].
  split; [rewrite Hregs1; exact H9 |].
  rewrite Hbus2, registers_app. cbn [foldl]. unfold write_register.
  cbn [fst snd].
  split; [apply lookup_insert_eq |].
  intros i Hi. unfold _DECODE_MODE at 1. rewrite lookup_insert_ne by lia.
  rewrite (hex_to_seg_lookup ((hexval / 16 ^ i) mod 16))
    by (apply Z.mod_pos_bound; lia).
  rewrite Hregs1. apply index_cases_6 in Hi.
  destruct Hi as [-> | [-> | [-> | [-> | [-> | ->]]]]]; assumption.
Qed.

Lemma write_num_rejected_after_write_hex_witness :
  registers (bus (final_state (write_num 1000000 0
     (final_state (Starter.write_hex 0xAB blank))))) !! 1 = Some 31
  /\ registers (bus (final_state (write_num 1000000 0
     (final_state (Starter.write_hex 0xAB blank))))) !! _DECODE_MODE = Some 0xFF.
Proof.
  destruct (write_num_rejected_after_write_hex 0xAB 1000000 0 blank
              ltac:(lia) ltac:(lia)) as (_ & _ & _ & Hmode & Hdigits).
  split; [exact (Hdigits 0 ltac:(lia)) | exact Hmode].
Defined.

(** ** The blank display *)

Lemma display_clear_sent s :
  display_clear s
  = Return tt (set_current_num None
       (sent [(_DECODE_MODE, 0xFF); (1, 0x0F); (2, 0x0F); (3, 0x0F);
              (4, 0x0F); (5, 0x0F); (6, 0x0F)] s)).
Proof.
  unfold display_clear.
  erewrite bind_Return by apply _register_sent.
  erewrite bind_Return.
  2:{ rewrite range_6. cbn [for_range].
      repeat (erewrite bind_Return
                by (erewrite bind_Return by (apply getitem_digit; lia);
                    rewrite _register_sent, sent_sent; reflexivity)).
      reflexivity. }
  reflexivity.
Qed.

(** X7: [display_clear] sets decode mode 0xFF, writes the blank code
    0x0F to the six digit registers, forgets the stored number and keeps
    the stored mask; on the blank display [increment_num] and
    [decrement_num] raise [ValueError] and change nothing, in either
    mode. *)
Theorem display_clear_blank (s : Atlas) :
  let s' := final_state (display_clear s) in
  raised (display_clear s) = false
  /\ current_num s' = None
  /\ current_dp s' = current_dp s
  /\ registers (bus s') !! _DECODE_MODE = Some 0xFF
  /\ (forall i, 0 <= i < 6 -> registers (bus s') !! (i + 1) = Some 0x0F)
  /\ (forall hex,
        Starter.increment_num hex s' = Raise (ValueError "No value to increment") s'
        /\ Starter.decrement_num hex s' = Raise (ValueError "No value to decrement") s').
Proof.
  intros s'. subst s'. rewrite display_clear_sent. cbn [final_state raised].
  set (s' := set_current_num None _).
  assert (Hnum : current_num s' = None) by reflexivity.
  destruct (registers_display (registers (bus s)) 15 15 15 15 15 15 255)
    as (H9 & H1 & H2 & H3 & H4 & H5 & H6 & _).
  assert (Hregs : registers (bus s')
    = foldl write_register (registers (bus s))
        [(_DECODE_MODE, 255); (1, 15); (2, 15); (3, 15); (4, 15); (5, 15); (6, 15)])
    by apply registers_app.
  split; [reflexivity |]. split; [exact Hnum |]. split; [reflexivity |].
  split; [rewrite Hregs; exact H9 |]. split.
  - intros i Hi. rewrite Hregs. apply index_cases_6 in Hi.
    destruct Hi as [-> | [-> | [-> | [-> | [-> | ->]]]]]; assumption.
  - intros hex. split;
      [now apply increment_num_blank | now apply decrement_num_blank].
Qed.

(** ** Counting up and down *)

(** X8: away from the upper end, counting up and then down comes back:
    for a stored number [n] in [-99999, 999998], decimal
    [increment_num] stores [n + 1] and the [decrement_num] after it
    stores [n] again, neither raises, and the display ends as
    [write_num n] leaves it; from 999999 the pair ends at -1. *)
Theorem increment_then_decrement (n : Z) (s : Atlas) :
  dp_ok s ->
  current_num s = Some n ->
  -99999 <= n <= 999999 ->
  let s1 := final_state (Starter.increment_num false s) in
  let s2 := final_state (Starter.decrement_num false s1) in
  raised (Starter.increment_num false s) = false
  /\ raised (Starter.decrement_num false s1) = false
  /\ current_dp s2 = current_dp s
  /\ (n <= 999998 ->
        current_num s1 = Some (n + 1) /\ current_num s2 = Some n
        /\ registers (bus s2)
           = registers (bus (final_state (write_num n (current_dp s) s1))))
  /\ (n = 999999 -> current_num s1 = Some 0 /\ current_num s2 = Some (-1)).
Proof.
  intros Hdp Hn Hrange s1 s2.
  assert (Hinc := increment_num_step false n s Hn). cbv zeta iota in Hinc.
  destruct (Z_le_gt_dec n 999998) as [Hlow | Hhigh].
  - replace (n + 1 >? _MAX_VALUE_DEC) with false in Hinc
      by (symmetry; rewrite Z.gtb_ltb; apply Z.ltb_ge; bounds).
    assert (Hs1 : exists frames, Starter.increment_num false s
      = Return tt (sent frames (set_current_dp (current_dp s)
                                  (set_current_num (Some (n + 1)) s)))).
    { rewrite Hinc.
      destruct (write_num_cases (n + 1) (current_dp s) s)
        as [(_ & _ & H) | [(_ & _ & H) | (Hbad & _)]];
        [eexists; exact H | eexists; exact H | exfalso; bounds]. }
    destruct Hs1 as [frames Hs1].
    assert (Hnum1 : current_num s1 = Some (n + 1))
      by (subst s1; now rewrite Hs1).
    assert (Hdp1 : current_dp s1 = current_dp s)
      by (subst s1; now rewrite Hs1).
    assert (Hdec := decrement_num_step false (n + 1) s1 Hnum1).
    cbv zeta iota in Hdec.
    replace (n + 1 - 1 <? _MIN_VALUE_DEC) with false in Hdec
      by (symmetry; apply Z.ltb_ge; bounds).
    replace (n + 1 - 1) with n in Hdec by lia. rewrite Hdp1 in Hdec.
    assert (Hs2 : exists frames2, write_num n (current_dp s) s1
      = Return tt (sent frames2 (set_current_dp (current_dp s)
                                   (set_current_num (Some n) s1)))).
    { destruct (write_num_cases n (current_dp s) s1)
        as [(_ & _ & H) | [(_ & _ & H) | (Hbad & _)]];
        [eexists; exact H | eexists; exact H | exfalso; bounds]. }
    destruct Hs2 as [frames2 Hs2].
    split; [now rewrite Hs1 |].
    split; [now rewrite Hdec, Hs2 |].
    split; [subst s2; now rewrite Hdec, Hs2 |].
    split; [| intros ->; lia].
    intros _. split; [exact Hnum1 |].
    split; subst s2; rewrite Hdec; [now rewrite Hs2 | reflexivity].
  - assert (n = 999999) as -> by lia.
    destruct (increment_decrement_wrap s) as (Hwrap & _).
    destruct (Hwrap Hdp Hn) as (_ & Hs1).
    assert (Hnum1 : current_num s1 = Some 0) by (subst s1; now rewrite Hs1).
    assert (Hdp1 : current_dp s1 = current_dp s) by (subst s1; now rewrite Hs1).
    assert (Hdec := decrement_num_step false 0 s1 Hnum1). cbv zeta iota in Hdec.
    change (0 - 1 <? _MIN_VALUE_DEC) with false in Hdec. cbv iota in Hdec.
    change (0 - 1) with (-1) in Hdec. rewrite Hdp1 in Hdec.
    assert (Hs2 := write_num_negative (-1) (current_dp s) s1
                     ltac:(bounds) ltac:(bounds)).
    split; [now rewrite Hs1 |].
    split; [now rewrite Hdec, Hs2 |].
    split; [subst s2; now rewrite Hdec, Hs2 |].
    split; [intros; lia |].
    intros _. split; [exact Hnum1 |]. subst s2. now rewrite Hdec, Hs2.
Qed.

Lemma increment_then_decrement_witness :
  current_num (final_state (Starter.decrement_num false
     (final_state (Starter.increment_num false
        (set_current_num (Some 41) blank))))) = Some 41.
Proof.
  destruct (increment_then_decrement 41 (set_current_num (Some 41) blank)
              ltac:(unfold dp_ok; cbn; bounds) eq_refl ltac:(lia))
    as (_ & _ & _ & Hback & _).
  exact (proj1 (proj2 (Hback ltac:(lia)))).
Defined.

(** ** What every call keeps *)

Lemma write_num_num_ok value dp s :
  num_ok s -> num_ok (final_state (write_num value dp s)).
Proof.
  intros Hs.
  destruct (write_num_cases value dp s)
    as [(Hv & _ & H) | [(Hv & _ & H) | (_ & H)]]; rewrite H;
    cbn [final_state]; unfold num_ok; rewrite sent_current_num.
  - unfold set_current_dp, set_current_num; cbn [current_num]. bounds.
  - unfold set_current_dp, set_current_num; cbn [current_num]. bounds.
  - exact Hs.
Qed.

Lemma write_hex_num_ok value s :
  num_ok s -> num_ok (final_state (Starter.write_hex value s)).
Proof.
  intros Hs.
  destruct (write_hex_cases value s) as [(Hv & H) | (_ & H)]; rewrite H;
    cbn [final_state]; unfold num_ok; rewrite sent_current_num.
  - unfold set_current_num; cbn [current_num]. bounds.
  - exact Hs.
Qed.

Lemma set_sentinel_num_ok n s :
  -1 <= n <= 1 -> num_ok (set_current_num (Some n) s).
Proof. intros Hn. unfold num_ok, set_current_num; cbn [current_num]. bounds. Qed.

Lemma increment_num_num_ok hex s :
  num_ok s -> num_ok (final_state (Starter.increment_num hex s)).
Proof.
  intros Hs. destruct (current_num s) as [n |] eqn:Hn.
  - rewrite (increment_num_step hex n s Hn). cbv zeta.
    destruct hex; destruct (n + 1 >? _);
      [apply write_hex_num_ok | apply write_hex_num_ok
       | apply write_num_num_ok | apply write_num_num_ok];
      (exact Hs || (apply set_sentinel_num_ok; lia)).
  - now rewrite increment_num_blank.
Qed.

Lemma decrement_num_num_ok hex s :
  num_ok s -> num_ok (final_state (Starter.decrement_num hex s)).
Proof.
  intros Hs. destruct (current_num s) as [n |] eqn:Hn.
  - rewrite (decrement_num_step hex n s Hn). cbv zeta.
    destruct hex; destruct (n - 1 <? _);
      [apply write_hex_num_ok | apply write_hex_num_ok
       | apply write_num_num_ok | apply write_num_num_ok];
      (exact Hs || (apply set_sentinel_num_ok; lia)).
  - now rewrite decrement_num_blank.
Qed.

Lemma update_clock24_num_ok s :
  num_ok s -> num_ok (final_state (Starter._update_clock24 s)).
Proof.
  intros Hs. unfold Starter._update_clock24.
  erewrite bind_Return by reflexivity.
  unfold Starter.int.
  destruct (NilZero.int_of_string (Starter.time_str (rtc s))) as [d |].
  - erewrite bind_Return by reflexivity. now apply write_num_num_ok.
  - exact Hs.
Qed.

Lemma play_song_num_ok notes : forall s,
  num_ok s -> num_ok (final_state (Starter.play_song notes s)).
Proof.
  induction notes as [| note rest IH]; intros s Hs; [exact Hs |].
  rewrite play_song_cons. apply IH. exact Hs.
Qed.

Lemma fire_num_ok id s : num_ok s -> num_ok (final_state (fire id s)).
Proof.
  intros Hs. unfold fire.
  destruct (timers s !! id) as [[rate mode cb] |]; [| exact Hs].
  destruct mode, cb; cbn [t_mode t_callback]; try exact Hs.
  - apply (update_clock24_num_ok (set_timers (delete id (timers s)) s)). exact Hs.
  - now apply update_clock24_num_ok.
Qed.

Lemma step_num_ok s s' : step s s' -> num_ok s -> num_ok s'.
Proof.
  intros Hstep Hs. destruct Hstep.
  - unfold display_brightness.
    destruct ((0 <=? value) && (value <=? 15)); exact Hs.
  - rewrite display_clear_sent. exact I.
  - now apply write_num_num_ok.
  - now apply write_hex_num_ok.
  - now apply increment_num_num_ok.
  - now apply decrement_num_num_ok.
  - exact Hs.
  - exact Hs.
  - exact Hs.
  - now apply play_song_num_ok.
  - exact Hs.
  - unfold Kit.mode_button_callback.
    destruct (fst (_debounce button)); exact Hs.
  - unfold Kit.incr_button_callback.
    destruct (fst (_debounce button)); [| exact Hs].
    rewrite Kit_increment_num. now apply increment_num_num_ok.
  - unfold Kit.decr_button_callback.
    destruct (fst (_debounce button)); [| exact Hs].
    rewrite Kit_decrement_num. now apply decrement_num_num_ok.
  - now apply fire_num_ok.
  - exact Hs.
  - exact Hs.
  - unfold Starter.mode_button_callback.
    destruct (fst (_debounce button)); exact Hs.
  - unfold Starter.incr_button_callback.
    destruct (fst (_debounce button)); exact Hs.
  - unfold Starter.decr_button_callback.
    destruct (fst (_debounce button)); exact Hs.
Qed.

(** X9: in every state a constructed driver can reach, through any
    sequence of calls, button callbacks and timer interrupts, returned or
    raised, the stored mask is within [0, 0b111111] and the stored number
    is absent or within [-99999, 0xFFFFFF]. *)
Theorem reachable_invariant (s : Atlas) :
  reachable s ->
  0 <= current_dp s <= 63
  /\ match current_num s with
     | None => True
     | Some n => -99999 <= n <= 0xFFFFFF
     end.
Proof.
  intros Hreach.
  split; [exact (reachable_dp_ok s Hreach) |].
  change (num_ok s).
  induction Hreach as [s0 | s0 | s s' _ IH Hstep].
  - destruct (init_dp_ok s0) as (_ & _ & Hkit & _).
    unfold num_ok. now rewrite Hkit.
  - destruct (init_dp_ok s0) as (_ & _ & _ & Hst).
    unfold num_ok. now rewrite Hst.
  - exact (step_num_ok s s' Hstep IH).
Qed.

Lemma reachable_invariant_witness :
  0 <= current_dp (final_state (Starter.write_hex 0xFFFFFF
         (final_state (Starter.__init__ blank)))) <= 63
  /\ match current_num (final_state (Starter.write_hex 0xFFFFFF
         (final_state (Starter.__init__ blank)))) with
     | None => True
     | Some n => -99999 <= n <= 0xFFFFFF
     end.
Proof.
  apply (reachable_invariant
           (final_state (Starter.write_hex 0xFFFFFF
              (final_state (Starter.__init__ blank))))).
  apply (reachable_step (final_state (Starter.__init__ blank))).
  - apply reachable_starter.
  - apply step_write_hex.
Defined.

(** ** Only bytes go over the bus *)

Lemma grows_refl s s' : bus s' = bus s -> grows_by_bytes s s'.
Proof. intros H. exists []. rewrite H, app_nil_r. split; constructor. Qed.

Lemma grows_trans s1 s2 s3 :
  grows_by_bytes s1 s2 -> grows_by_bytes s2 s3 -> grows_by_bytes s1 s3.
Proof.
  intros (f1 & H1 & B1) (f2 & H2 & B2). exists (f1 ++ f2).
  rewrite H2, H1, <- app_assoc. split; [reflexivity |].
  apply Forall_app. now split.
Qed.

Lemma grows_sent frames s0 s :
  bus s0 = bus s -> Forall byte_frame frames -> grows_by_bytes s (sent frames s0).
Proof.
  intros Hbus Hbytes. exists frames. rewrite sent_bus, Hbus. now split.
Qed.

Lemma digit_frame_byte value dp i : 0 <= i < 6 -> byte_frame (digit_frame value dp i).
Proof.
  intros Hi. unfold byte_frame, digit_frame. cbn [fst snd].
  split; [lia |].
  pose proof (digit_bound value i) as Hd. apply digit_cases in Hd.
  set (d := (value / 10 ^ i) mod 10) in *.
  destruct (Z.testbit dp i);
    repeat (destruct Hd as [-> | Hd]; [vm_compute; split; discriminate |]);
    rewrite Hd; vm_compute; split; discriminate.
Qed.

Lemma digit_frames_bytes value dp n :
  (n <= 6)%nat -> Forall byte_frame (map (digit_frame value dp) (range n)).
Proof.
  intros Hn. apply Forall_forall. intros fr Hin.
  apply list_elem_of_In, in_map_iff in Hin. destruct Hin as (i & <- & Hi).
  apply range_bounds in Hi. apply digit_frame_byte. lia.
Qed.

Lemma hex_frames_bytes value n :
  (n <= 6)%nat -> Forall byte_frame (hex_frames (range n) value).
Proof.
  intros Hn. rewrite hex_frames_range. apply Forall_forall. intros fr Hin.
  apply list_elem_of_In, in_map_iff in Hin. destruct Hin as (i & <- & Hi).
  apply range_bounds in Hi. unfold byte_frame. cbn [fst snd].
  split; [lia |].
  pose proof (Z.mod_pos_bound (value / 16 ^ i) 16 ltac:(lia)) as Hk.
  set (k := (value / 16 ^ i) mod 16) in *.
  assert (k = 0 \/ k = 1 \/ k = 2 \/ k = 3 \/ k = 4 \/ k = 5 \/ k = 6 \/ k = 7
          \/ k = 8 \/ k = 9 \/ k = 10 \/ k = 11 \/ k = 12 \/ k = 13 \/ k = 14
          \/ k = 15) as Hc by lia.
  repeat (destruct Hc as [-> | Hc]; [vm_compute; split; discriminate |]).
  rewrite Hc. vm_compute. split; discriminate.
Qed.

Lemma byte_frame_const command data :
  0 <= command <= 255 -> 0 <= data <= 255 -> byte_frame (command, data).
Proof. intros Hc Hd. now split. Qed.

Lemma write_num_grows value dp s :
  grows_by_bytes s (final_state (write_num value dp s)).
Proof.
  destruct (write_num_cases value dp s)
    as [(_ & _ & H) | [(_ & _ & H) | (_ & H)]]; rewrite H; cbn [final_state];
    apply grows_sent; try reflexivity.
  - constructor; [apply byte_frame_const; unfold _DECODE_MODE; lia |].
    now apply digit_frames_bytes.
  - constructor; [apply byte_frame_const; unfold _DECODE_MODE; lia |].
    constructor; [apply byte_frame_const; unfold _DIGIT5; lia |].
    apply digit_frames_bytes. lia.
  - constructor; [apply byte_frame_const; unfold _DECODE_MODE; lia |].
    constructor.
Qed.

Lemma write_hex_grows value s :
  grows_by_bytes s (final_state (Starter.write_hex value s)).
Proof.
  destruct (write_hex_cases value s) as [(_ & H) | (_ & H)]; rewrite H;
    cbn [final_state]; apply grows_sent; try reflexivity.
  - constructor; [apply byte_frame_const; unfold _DECODE_MODE; lia |].
    now apply hex_frames_bytes.
  - constructor; [apply byte_frame_const; unfold _DECODE_MODE; lia |].
    constructor.
Qed.

Lemma increment_num_grows hex s :
  grows_by_bytes s (final_state (Starter.increment_num hex s)).
Proof.
  destruct (current_num s) as [n |] eqn:Hn.
  - rewrite (increment_num_step hex n s Hn). cbv zeta.
    destruct hex; destruct (n + 1 >? _);
      [apply (grows_trans _ (set_current_num (Some (-1)) s));
         [now apply grows_refl | apply write_hex_grows]
      | apply write_hex_grows
      | apply (grows_trans _ (set_current_num (Some (-1)) s));
         [now apply grows_refl | apply write_num_grows]
      | apply write_num_grows].
  - rewrite increment_num_blank by assumption. now apply grows_refl.
Qed.

Lemma decrement_num_grows hex s :
  grows_by_bytes s (final_state (Starter.decrement_num hex s)).
Proof.
  destruct (current_num s) as [n |] eqn:Hn.
  - rewrite (decrement_num_step hex n s Hn). cbv zeta.
    destruct hex; destruct (n - 1 <? _);
      [apply (grows_trans _ (set_current_num (Some 1) s));
         [now apply grows_refl | apply write_hex_grows]
      | apply write_hex_grows
      | apply (grows_trans _ (set_current_num (Some 1) s));
         [now apply grows_refl | apply write_num_grows]
      | apply write_num_grows].
  - rewrite decrement_num_blank by assumption. now apply grows_refl.
Qed.

Lemma update_clock24_grows s :
  grows_by_bytes s (final_state (Starter._update_clock24 s)).
Proof.
  unfold Starter._update_clock24.
  erewrite bind_Return by reflexivity.
  unfold Starter.int.
  destruct (NilZero.int_of_string (Starter.time_str (rtc s))) as [d |].
  - erewrite bind_Return by reflexivity. apply write_num_grows.
  - now apply grows_refl.
Qed.

Lemma play_song_bus notes : forall s,
  bus (final_state (Starter.play_song notes s)) = bus s.
Proof.
  induction notes as [| note rest IH]; intros s; [reflexivity |].
  rewrite play_song_cons, IH. reflexivity.
Qed.

Lemma fire_grows id s : grows_by_bytes s (final_state (fire id s)).
Proof.
  unfold fire.
  destruct (timers s !! id) as [[rate mode cb] |]; [| now apply grows_refl].
  destruct mode, cb; cbn [t_mode t_callback]; try (now apply grows_refl).
  - apply (grows_trans _ (set_timers (delete id (timers s)) s));
      [now apply grows_refl | apply update_clock24_grows].
  - apply update_clock24_grows.
Qed.

(** X10: whatever the arguments, a call, a button callback or a timer
    interrupt only appends to what went over the bus, and every frame it
    appends has its command and its data within a byte, so
    [bytearray([command, data])] never overflows. *)
Theorem step_sends_bytes (s s' : Atlas) :
  step s s' ->
  exists frames,
    bus s' = bus s ++ frames
    /\ Forall (fun fr => 0 <= fst fr <= 255 /\ 0 <= snd fr <= 255) frames.
Proof.
  intros Hstep. change (grows_by_bytes s s'). destruct Hstep.
  - unfold display_brightness.
    destruct ((0 <=? value) && (value <=? 15)) eqn:Hc; [| now apply grows_refl].
    apply andb_true_iff in Hc as [H0 H15]. apply Z.leb_le in H0, H15.
    rewrite _register_sent. apply grows_sent; [reflexivity |].
    constructor; [| constructor].
    apply byte_frame_const; unfold _INTENSITY; lia.
  - rewrite display_clear_sent. cbn [final_state].
    apply (grows_sent _ s); [reflexivity |].
    repeat (constructor; [apply byte_frame_const; unfold _DECODE_MODE; lia |]).
    constructor.
  - apply write_num_grows.
  - apply write_hex_grows.
  - apply increment_num_grows.
  - apply decrement_num_grows.
  - now apply grows_refl.
  - now apply grows_refl.
  - now apply grows_refl.
  - apply grows_refl, play_song_bus.
  - now apply grows_refl.
  - unfold Kit.mode_button_callback.
    destruct (fst (_debounce button)); now apply grows_refl.
  - unfold Kit.incr_button_callback.
    destruct (fst (_debounce button)); [| now apply grows_refl].
    rewrite Kit_increment_num. apply increment_num_grows.
  - unfold Kit.decr_button_callback.
    destruct (fst (_debounce button)); [| now apply grows_refl].
    rewrite Kit_decrement_num. apply decrement_num_grows.
  - apply fire_grows.
  - now apply grows_refl.
  - now apply grows_refl.
  - unfold Starter.mode_button_callback.
    destruct (fst (_debounce button)); now apply grows_refl.
  - unfold Starter.incr_button_callback.
    destruct (fst (_debounce button)); now apply grows_refl.
  - unfold Starter.decr_button_callback.
    destruct (fst (_debounce button)); now apply grows_refl.
Qed.

Lemma step_sends_bytes_witness :
  exists frames,
    bus (final_state (write_num 999999 63 blank)) = bus blank ++ frames
    /\ Forall (fun fr => 0 <= fst fr <= 255 /\ 0 <= snd fr <= 255) frames.
Proof.
  apply (step_sends_bytes blank (final_state (write_num 999999 63 blank))).
  apply step_write_num.
Defined.

(** ** The only exception is [ValueError] *)

Lemma write_num_ValueError value dp s :
  returns_or_ValueError (write_num value dp s) = true.
Proof.
  destruct (write_num_cases value dp s)
    as [(_ & _ & H) | [(_ & _ & H) | (_ & H)]]; now rewrite H.
Qed.

Lemma write_hex_ValueError value s :
  returns_or_ValueError (Starter.write_hex value s) = true.
Proof.
  destruct (write_hex_cases value s) as [(_ & H) | (_ & H)]; now rewrite H.
Qed.

Lemma increment_num_ValueError hex s :
  returns_or_ValueError (Starter.increment_num hex s) = true.
Proof.
  destruct (current_num s) as [n |] eqn:Hn.
  - rewrite (increment_num_step hex n s Hn). cbv zeta.
    destruct hex; [apply write_hex_ValueError | apply write_num_ValueError].
  - now rewrite increment_num_blank.
Qed.

Lemma decrement_num_ValueError hex s :
  returns_or_ValueError (Starter.decrement_num hex s) = true.
Proof.
  destruct (current_num s) as [n |] eqn:Hn.
  - rewrite (decrement_num_step hex n s Hn). cbv zeta.
    destruct hex; [apply write_hex_ValueError | apply write_num_ValueError].
  - now rewrite decrement_num_blank.
Qed.

Lemma update_clock24_ValueError s :
  returns_or_ValueError (Starter._update_clock24 s) = true.
Proof.
  unfold Starter._update_clock24.
  erewrite bind_Return by reflexivity.
  unfold Starter.int.
  destruct (NilZero.int_of_string (Starter.time_str (rtc s))) as [d |].
  - erewrite bind_Return by reflexivity. apply write_num_ValueError.
  - reflexivity.
Qed.

(** X11: no call of the driver, whatever its arguments and the state,
    ends in a [KeyError] from [_DIGIT_DICT] or [_HEX_TO_SEG] or in a
    [TypeError] from a missing current number: it returns or raises
    [ValueError]. *)
Theorem only_ValueError (s : Atlas) :
  (forall value, returns_or_ValueError (display_brightness value s) = true)
  /\ returns_or_ValueError (display_clear s) = true
  /\ (forall value dp, returns_or_ValueError (write_num value dp s) = true)
  /\ (forall value, returns_or_ValueError (Starter.write_hex value s) = true)
  /\ (forall hex, returns_or_ValueError (Starter.increment_num hex s) = true)
  /\ (forall hex, returns_or_ValueError (Starter.decrement_num hex s) = true)
  /\ returns_or_ValueError (Kit.increment_num s) = true
  /\ returns_or_ValueError (Kit.decrement_num s) = true
  /\ returns_or_ValueError (Starter._update_clock24 s) = true
  /\ returns_or_ValueError (Starter.timer_callback s) = true
  /\ (forall id, returns_or_ValueError (fire id s) = true).
Proof.
  split.
  { intros value. unfold display_brightness.
    now destruct ((0 <=? value) && (value <=? 15)). }
  split; [now rewrite display_clear_sent |].
  split; [intros; apply write_num_ValueError |].
  split; [intros; apply write_hex_ValueError |].
  split; [intros; apply increment_num_ValueError |].
  split; [intros; apply decrement_num_ValueError |].
  split; [rewrite Kit_increment_num; apply increment_num_ValueError |].
  split; [rewrite Kit_decrement_num; apply decrement_num_ValueError |].
  split; [apply update_clock24_ValueError |].
  split; [apply (increment_num_ValueError false) |].
  intros id. unfold fire.
  destruct (timers s !! id) as [[rate mode cb] |]; [| reflexivity].
  destruct mode, cb; cbn [t_mode t_callback]; try reflexivity.
  - apply (update_clock24_ValueError (set_timers (delete id (timers s)) s)).
  - apply update_clock24_ValueError.
Qed.

(** ** Counting in the other mode *)

(** X12: the two modes share the stored number.  A stored negative
    number below -1 makes the hexadecimal [increment_num] raise, after
    it switched the controller to raw segments; a stored number above
    1000000 makes the decimal [decrement_num] raise; in both cases the
    number stays stored.  The hexadecimal [decrement_num] takes every
    stored number below 1 to 0, and the decimal [increment_num] takes
    every stored number from 999999 on to 0. *)
Theorem counting_across_modes (n : Z) (s : Atlas) :
  current_num s = Some n ->
  (n < -1 ->
     Starter.increment_num true s
     = Raise (ValueError "Value out of range") (sent [(_DECODE_MODE, 0x0)] s))
  /\ (n > 1000000 ->
     Starter.decrement_num false s
     = Raise (ValueError "Value out of range") (sent [(_DECODE_MODE, 0xFF)] s))
  /\ (n < 1 ->
     Starter.decrement_num true s
     = Return tt (sent zero_hex_frames (set_current_num (Some 0) s)))
  /\ (n >= 999999 -> dp_ok s ->
     Starter.increment_num false s
     = Return tt (sent (zero_dec_frames (current_dp s))
                       (set_current_num (Some 0) s))).
Proof.
  intros Hn. split; [| split; [| split]].
  - intros Hlow. rewrite (increment_num_step true n s Hn). cbv zeta iota.
    replace (n + 1 >? _MAX_VALUE_HEX) with false
      by (symmetry; rewrite Z.gtb_ltb; apply Z.ltb_ge; bounds).
    apply write_hex_out_of_range. lia.
  - intros Hhigh. rewrite (decrement_num_step false n s Hn). cbv zeta iota.
    replace (n - 1 <? _MIN_VALUE_DEC) with false
      by (symmetry; apply Z.ltb_ge; bounds).
    apply write_num_out_of_range. bounds.
  - intros Hlow. rewrite (decrement_num_step true n s Hn). cbv zeta iota.
    replace (n - 1 <? _MIN_VALUE_HEX) with true
      by (symmetry; apply Z.ltb_lt; bounds).
    now rewrite write_hex_in_range by bounds.
  - intros Hhigh Hdp. rewrite (increment_num_step false n s Hn). cbv zeta iota.
    replace (n + 1 >? _MAX_VALUE_DEC) with true
      by (symmetry; rewrite Z.gtb_ltb; apply Z.ltb_lt; bounds).
    now rewrite write_num_nonneg by bounds.
Qed.

Lemma counting_across_modes_witness :
  Starter.increment_num true (final_state (write_num (-5) 0 blank))
  = Raise (ValueError "Value out of range")
          (sent [(_DECODE_MODE, 0x0)] (final_state (write_num (-5) 0 blank)))
  /\ Starter.decrement_num false (final_state (Starter.write_hex 0xFFFFFF blank))
  = Raise (ValueError "Value out of range")
          (sent [(_DECODE_MODE, 0xFF)]
                (final_state (Starter.write_hex 0xFFFFFF blank))).
Proof.
  destruct (counting_across_modes (-5) (final_state (write_num (-5) 0 blank))
              eq_refl) as (Hinc & _).
  destruct (counting_across_modes 0xFFFFFF
              (final_state (Starter.write_hex 0xFFFFFF blank)) eq_refl)
    as (_ & Hdec & _).
  split; [exact (Hinc ltac:(lia)) | exact (Hdec ltac:(lia))].
Defined.

(** ** How [_debounce] decides *)

(** X13: [_debounce] reads the pin in pairs, at most 32 pairs (64
    reads).  The first pair whose second read is high decides: the
    result is the negation of that pair's first read, after twice as
    many reads as pairs were taken.  When no second read is high, the
    result is the negation of the first read of the 32nd pair, after 64
    reads. *)
Theorem debounce_decides (button : nat -> bool) :
  (snd (_debounce button) <= 64)%nat
  /\ (forall j,
        (j < 32)%nat ->
        (forall i, (i < j)%nat -> button (S (2 * i)) = false) ->
        button (S (2 * j)) = true ->
        _debounce button = (negb (button (2 * j)%nat), (2 * j + 2)%nat))
  /\ ((forall i, (i < 32)%nat -> button (S (2 * i)) = false) ->
        _debounce button = (negb (button 62%nat), 64%nat)).
Proof.
  split; [apply _debounce_reads |].
  split; [intros j; apply _debounce_early | apply _debounce_exhausted].
Qed.

Lemma debounce_decides_witness :
  _debounce (fun k => Nat.eqb k 5) = (true, 6%nat)
  /\ _debounce (fun k => Nat.eqb k 62) = (false, 64%nat).
Proof.
  destruct (debounce_decides (fun k => Nat.eqb k 5)) as (_ & Hearly & _).
  destruct (debounce_decides (fun k => Nat.eqb k 62)) as (_ & _ & Hend).
  split.
  - apply (Hearly 2%nat ltac:(lia)); [| reflexivity].
    intros i Hi. destruct i as [| [| i]]; [reflexivity | reflexivity | lia].
  - apply Hend. intros i Hi.
    apply Nat.eqb_neq. lia.
Defined.

(** ** The mode button *)

(** X14: a mode-button interrupt changes something only when
    [_debounce] confirms it.  A confirmed one flips the three LEDs at
    once in atlas.py and the red LED in starter/atlas.py, and nothing
    else; two confirmed ones put the state back exactly. *)
Theorem mode_button_flips (button button' : nat -> bool) (s : Atlas) :
  (fst (_debounce button) = false ->
     Kit.mode_button_callback button s = Return tt s
     /\ Starter.mode_button_callback button s = Return tt s)
  /\ (fst (_debounce button) = true ->
     Kit.mode_button_callback button s
     = Return tt (set_blue_led (negb (blue_led s))
                    (set_green_led (negb (green_led s))
                       (set_red_led (negb (red_led s)) s)))
     /\ Starter.mode_button_callback button s
        = Return tt (set_red_led (negb (red_led s)) s))
  /\ (fst (_debounce button) = true -> fst (_debounce button') = true ->
     (Kit.mode_button_callback button ;; Kit.mode_button_callback button') s
     = Return tt s
     /\ (Starter.mode_button_callback button ;;
         Starter.mode_button_callback button') s = Return tt s).
Proof.
  unfold Kit.mode_button_callback, Starter.mode_button_callback.
  split; [| split].
  - intros ->. now split.
  - intros ->. now split.
  - intros -> ->. destruct s as [cs b r g bl bp n dp t clock].
    destruct r, g, bl; now split.
Qed.

Lemma mode_button_flips_witness :
  Kit.mode_button_callback (fun _ => false) blank
  = Return tt (set_blue_led true (set_green_led true (set_red_led true blank)))
  /\ Kit.mode_button_callback (fun _ => true) blank = Return tt blank.
Proof.
  destruct (mode_button_flips (fun _ => false) (fun _ => false) blank)
    as (_ & Hflip & _).
  destruct (mode_button_flips (fun _ => true) (fun _ => true) blank)
    as (Hnot & _).
  split; [exact (proj1 (Hflip eq_refl)) | exact (proj1 (Hnot eq_refl))].
Defined.

(** ** Tones *)

Lemma fire_unarmed id s : timers s !! id = None -> fire id s = Return tt s.
Proof. intros H. unfold fire. now rewrite H. Qed.

Lemma fire_times_unarmed k id s :
  timers s !! id = None -> fire_times k id s = s.
Proof.
  intros H. induction k as [| k IH]; [reflexivity |].
  cbn [fire_times]. rewrite fire_unarmed by assumption. exact IH.
Qed.

Lemma fire_tone k : forall cb s rate,
  cb = CbBeeper \/ cb = CbBuzzer ->
  timers s !! 2 = Some (TimerCfg rate PERIODIC cb) ->
  fire_times k 2 s = set_beeper (xorb (beeper s) (Nat.odd k)) s.
Proof.
  induction k as [| k IH]; intros cb s rate Hcb Harmed.
  - cbn [fire_times]. change (Nat.odd 0) with false. rewrite xorb_false_r.
    now destruct s.
  - cbn [fire_times].
    assert (Hfire : fire 2 s = Return tt (set_beeper (negb (beeper s)) s)).
    { unfold fire. rewrite Harmed. now destruct Hcb as [-> | ->]. }
    rewrite Hfire. cbn [final_state].
    rewrite (IH cb _ rate Hcb) by exact Harmed.
    rewrite Nat.odd_succ, <- Nat.negb_odd.
    unfold set_beeper; cbn. f_equal.
    now destruct (beeper s), (Nat.odd k).
Qed.

Lemma play_note_arms freq duration s :
  timers (final_state (Starter.play_note freq duration s)) !! 2
  = Some (tone_cfg freq)
  /\ timers (final_state (Starter.play_note freq duration s)) !! 0
     = Some (duration_cfg duration).
Proof.
  rewrite play_note_timers. cbn [final_state timers set_timers]. split.
  - rewrite lookup_insert_ne by lia. apply lookup_insert_eq.
  - apply lookup_insert_eq.
Qed.

(** X15: after [play_note] of starter/atlas.py, [k] interrupts of the
    tone timer leave the beeper pin at its level before the note when
    [k] is even and at the opposite level when [k] is odd, with both
    timers still armed and everything else as it was; once the duration
    timer has fired, neither timer is armed and further interrupts of
    either change nothing. *)
Theorem tone_toggles_until_duration (freq : Q) (duration : Z) (k m : nat)
    (s : Atlas) :
  let s1 := final_state (Starter.play_note freq duration s) in
  let sk := fire_times k 2 s1 in
  let se := final_state (fire 0 sk) in
  sk = set_beeper (xorb (beeper s) (Nat.odd k)) s1
  /\ timers sk !! 2 = Some (tone_cfg freq)
  /\ timers sk !! 0 = Some (duration_cfg duration)
  /\ beeper se = xorb (beeper s) (Nat.odd k)
  /\ timers se !! 2 = None
  /\ timers se !! 0 = None
  /\ fire_times m 2 se = se
  /\ fire_times m 0 se = se.
Proof.
  intros s1 sk se.
  destruct (play_note_arms freq duration s) as (H2 & H0).
  fold s1 in H2, H0.
  assert (Hsk : sk = set_beeper (xorb (beeper s) (Nat.odd k)) s1).
  { subst sk. apply (fire_tone k CbBeeper s1 (Freq freq)); [now left | exact H2]. }
  assert (Hse : se = set_timers (delete 2 (delete 0 (timers sk))) sk).
  { subst se. unfold fire.
    replace (timers sk !! 0) with (Some (duration_cfg duration))
      by (rewrite Hsk; symmetry; exact H0).
    reflexivity. }
  assert (He2 : timers se !! 2 = None)
    by (rewrite Hse; cbn [timers set_timers]; apply lookup_delete_eq).
  assert (He0 : timers se !! 0 = None).
  { rewrite Hse. cbn [timers set_timers].
    rewrite lookup_delete_ne by lia. apply lookup_delete_eq. }
  split; [exact Hsk |].
  split; [rewrite Hsk; exact H2 |]. split; [rewrite Hsk; exact H0 |].
  split; [rewrite Hse, Hsk; reflexivity |].
  split; [exact He2 |]. split; [exact He0 |].
  split; now apply fire_times_unarmed.
Qed.

(** X16: in atlas.py, [play_note] while a note plays replaces its
    frequency; whatever the number [k] of tone interrupts since,
    [stop_note] leaves the buzzer pin at 1 and timer 2 disarmed, and
    interrupts of timer 2 after it change nothing. *)
Theorem stop_note_silences (f1 f2 : Q) (k m : nat) (s : Atlas) :
  let s1 := final_state (Kit.play_note f2 (final_state (Kit.play_note f1 s))) in
  let s2 := final_state (Kit.stop_note (fire_times k 2 s1)) in
  s1 = final_state (Kit.play_note f2 s)
  /\ timers s1 !! 2 = Some (TimerCfg (Freq f2) PERIODIC CbBuzzer)
  /\ beeper (fire_times k 2 s1) = xorb (beeper s) (Nat.odd k)
  /\ beeper s2 = true
  /\ timers s2 !! 2 = None
  /\ fire_times m 2 s2 = s2.
Proof.
  intros s1 s2.
  assert (Hs1 : s1 = final_state (Kit.play_note f2 s)).
  { subst s1. unfold Kit.play_note, timer_init, modify. cbn [final_state].
    unfold set_timers; cbn. f_equal. apply insert_insert_eq. }
  assert (Harmed : timers s1 !! 2 = Some (TimerCfg (Freq f2) PERIODIC CbBuzzer)).
  { rewrite Hs1. cbn. apply lookup_insert_eq. }
  assert (Hk := fire_tone k CbBuzzer s1 (Freq f2) ltac:(now right) Harmed).
  assert (H2 : timers s2 !! 2 = None) by (cbn; apply lookup_delete_eq).
  split; [exact Hs1 |]. split; [exact Harmed |].
  split; [rewrite Hk, Hs1; reflexivity |].
  split; [reflexivity |]. split; [exact H2 |].
  now apply fire_times_unarmed.
Qed.

(** ** The clock *)

(** X17: after [start_clock24], an interrupt of timer 1 at a sample with
    hours in [0, 23] and minutes and seconds in [0, 59] returns, stores
    [hours * 10000 + minutes * 100 + seconds] as the current number and
    0b010100 as the current mask in place of the ones stored before,
    shows that number in the registers, and leaves timer 1 armed with
    its period of 1000 ms. *)
Theorem clock_tick (s : Atlas) :
  0 <= dt_hours (rtc s) <= 23 ->
  0 <= dt_minutes (rtc s) <= 59 ->
  0 <= dt_seconds (rtc s) <= 59 ->
  let hhmmss := dt_hours (rtc s) * 10000 + dt_minutes (rtc s) * 100
                + dt_seconds (rtc s) in
  let s1 := final_state (Starter.start_clock24 s) in
  let s2 := final_state (fire 1 s1) in
  raised (fire 1 s1) = false
  /\ current_num s2 = Some hhmmss
  /\ current_dp s2 = 20
  /\ timers s2 !! 1 = Some (TimerCfg (Period 1000) PERIODIC CbClock)
  /\ (forall i, 0 <= i < 6 ->
        registers (bus s2) !! (i + 1) = Some (snd (digit_frame hhmmss 20 i))).
Proof.
  intros Hh Hm Hs hhmmss s1 s2.
  assert (Harmed : timers s1 !! 1 = Some (TimerCfg (Period 1000) PERIODIC CbClock))
    by (cbn; apply lookup_insert_eq).
  assert (Hfire : fire 1 s1 = write_num hhmmss 20 s1).
  { unfold fire. rewrite Harmed. cbn [t_mode t_callback run_callback].
    unfold Starter.clock_timer_callback.
    apply (update_clock24_hhmmss s1 Hh Hm Hs). }
  assert (Hrange : 0 <= hhmmss <= 999999) by (subst hhmmss; lia).
  assert (Hrun := write_num_nonneg hhmmss 20 s1 ltac:(bounds) ltac:(bounds)).
  split; [now rewrite Hfire, Hrun |].
  split; [subst s2; now rewrite Hfire, Hrun |].
  split; [subst s2; now rewrite Hfire, Hrun |].
  split; [subst s2; rewrite Hfire, Hrun; exact Harmed |].
  subst s2. rewrite Hfire.
  apply (write_num_registers hhmmss 20 s1 Hrange ltac:(lia)).
Qed.

Lemma clock_tick_witness :
  current_num (final_state (fire 1 (final_state (Starter.start_clock24
     (final_state (Starter.set_time 23 59 59 blank)))))) = Some 235959.
Proof.
  destruct (clock_tick (final_state (Starter.set_time 23 59 59 blank))
              ltac:(cbn; lia) ltac:(cbn; lia) ltac:(cbn; lia))
    as (_ & Hnum & _).
  exact Hnum.
Defined.

(** X18: [set_time_ntp] keeps the date, minutes and seconds fetched from
    the network and shifts the hour only: for a fetched hour in [0, 23]
    and an offset in [-24, 24] the hour set is
    [(hour + utc_offset) mod 24], within [0, 23]; the day is not moved
    when the hour wraps. *)
Theorem set_time_ntp_wraps_hour (network_time : datetime) (utc_offset : Z)
    (s : Atlas) :
  0 <= dt_hours network_time <= 23 ->
  -24 <= utc_offset <= 24 ->
  let hour := (dt_hours network_time + utc_offset) mod 24 in
  Starter.set_time_ntp network_time utc_offset s
  = Return tt (set_rtc
      (DateTime (dt_year network_time) (dt_month network_time)
                (dt_day network_time) (dt_weekday network_time)
                hour
                (dt_minutes network_time) (dt_seconds network_time)
                (dt_subseconds network_time)) s)
  /\ 0 <= hour <= 23.
Proof.
  intros Hh Hoff hour.
  split; [| subst hour; pose proof (Z.mod_pos_bound
              (dt_hours network_time + utc_offset) 24); lia].
  assert (Hwrap :
    (if dt_hours network_time + utc_offset <? 0
     then 24 + (dt_hours network_time + utc_offset)
     else if dt_hours network_time + utc_offset >? 23
          then dt_hours network_time + utc_offset - 24
          else dt_hours network_time + utc_offset) = hour).
  { subst hour. set (h := dt_hours network_time + utc_offset).
    destruct (h <? 0) eqn:Hneg.
    - apply Z.ltb_lt in Hneg.
      apply (Z.mod_unique_pos h 24 (-1)); lia.
    - apply Z.ltb_ge in Hneg. destruct (h >? 23) eqn:Hbig.
      + rewrite Z.gtb_ltb in Hbig. apply Z.ltb_lt in Hbig.
        apply (Z.mod_unique_pos h 24 1); lia.
      + rewrite Z.gtb_ltb in Hbig. apply Z.ltb_ge in Hbig.
        symmetry. apply Z.mod_small. lia. }
  unfold Starter.set_time_ntp.
  erewrite bind_Return by reflexivity.
  erewrite bind_Return by reflexivity.
  cbv zeta. unfold modify. cbn [rtc set_rtc]. now rewrite Hwrap.
Qed.

Lemma set_time_ntp_wraps_hour_witness :
  Starter.set_time_ntp (DateTime 2024 12 31 1 22 30 15 0) 5 blank
  = Return tt (set_rtc (DateTime 2024 12 31 1 3 30 15 0) blank).
Proof.
  apply (set_time_ntp_wraps_hour (DateTime 2024 12 31 1 22 30 15 0) 5 blank);
    cbn; lia.
Defined.

(** ** Construction *)

Lemma sent_set_current_num frames n s :
  sent frames (set_current_num n s) = set_current_num n (sent frames s).
Proof. reflexivity. Qed.

Lemma set_current_num_twice n m s :
  set_current_num n (set_current_num m s) = set_current_num n s.
Proof. reflexivity. Qed.

Lemma Kit_init_sent s0 :
  Kit.__init__ s0
  = Return tt
      (set_current_dp 0 (set_current_num None
         (sent [(12, 0); (15, 0); (11, 7); (9, 0); (12, 1); (9, 255); (1, 15);
                (2, 15); (3, 15); (4, 15); (5, 15); (6, 15); (10, 5)]
               (set_timers (delete 2 (timers s0))
                  (set_beeper true
                     (set_blue_led false
                        (set_green_led false (set_red_led false s0)))))))).
Proof.
  unfold Kit.__init__.
  do 6 (erewrite bind_Return by reflexivity).
  erewrite bind_Return by apply _register_sent.
  do 4 (erewrite bind_Return
          by (rewrite _register_sent, sent_sent; reflexivity)).
  erewrite bind_Return by apply display_clear_sent.
  change (display_brightness 5) with (_register _INTENSITY 5).
  erewrite bind_Return by apply _register_sent.
  erewrite bind_Return by reflexivity.
  unfold modify. f_equal.
  rewrite ?sent_set_current_num, !sent_sent, ?set_current_num_twice.
  reflexivity.
Qed.

Lemma Starter_init_sent s0 :
  Starter.__init__ s0
  = Return tt
      (set_blue_led false (set_green_led false (set_red_led false
         (set_current_dp 0 (set_current_num None
            (sent [(12, 0); (11, 7); (9, 255); (10, 10); (12, 1); (9, 255);
                   (1, 15); (2, 15); (3, 15); (4, 15); (5, 15); (6, 15)]
                  s0)))))).
Proof.
  unfold Starter.__init__.
  do 3 (erewrite bind_Return by reflexivity).
  erewrite bind_Return by apply _register_sent.
  do 4 (erewrite bind_Return
          by (rewrite _register_sent, sent_sent; reflexivity)).
  erewrite bind_Return by apply display_clear_sent.
  do 2 (erewrite bind_Return by reflexivity).
  unfold modify. f_equal.
  rewrite ?sent_set_current_num, !sent_sent, ?set_current_num_twice.
  reflexivity.
Qed.

(** X19: whatever the state before, both constructors leave the
    controller out of shutdown, scanning all digits, in code-B decode
    mode with the six digits blank, the LEDs off, no current number and
    the mask 0; atlas.py sets intensity 5, drives the buzzer pin to 1
    and disarms timer 2, while starter/atlas.py sets intensity 10 and
    touches neither the beeper pin nor the timers. *)
Theorem init_state (s0 : Atlas) :
  let kit := final_state (Kit.__init__ s0) in
  let starter := final_state (Starter.__init__ s0) in
  raised (Kit.__init__ s0) = false
  /\ raised (Starter.__init__ s0) = false
  /\ (forall s, s = kit \/ s = starter ->
        registers (bus s) !! _SHUTDOWN = Some 1
        /\ registers (bus s) !! _SCAN_LIMIT = Some 7
        /\ registers (bus s) !! _DECODE_MODE = Some 0xFF
        /\ (forall i, 0 <= i < 6 -> registers (bus s) !! (i + 1) = Some 0x0F)
        /\ current_num s = None /\ current_dp s = 0
        /\ red_led s = false /\ green_led s = false /\ blue_led s = false)
  /\ registers (bus kit) !! _INTENSITY = Some 5
  /\ registers (bus kit) !! _DISPLAY_TEST = Some 0
  /\ beeper kit = true
  /\ timers kit !! 2 = None
  /\ registers (bus starter) !! _INTENSITY = Some 10
  /\ beeper starter = beeper s0
  /\ timers starter = timers s0.
Proof.
  intros kit starter.
  assert (Hkit : bus kit = bus s0 ++
    [(12, 0); (15, 0); (11, 7); (9, 0); (12, 1); (9, 255); (1, 15); (2, 15);
     (3, 15); (4, 15); (5, 15); (6, 15); (10, 5)]).
  { subst kit. now rewrite Kit_init_sent. }
  assert (Hst : bus starter = bus s0 ++
    [(12, 0); (11, 7); (9, 255); (10, 10); (12, 1); (9, 255); (1, 15); (2, 15);
     (3, 15); (4, 15); (5, 15); (6, 15)]).
  { subst starter. now rewrite Starter_init_sent. }
  assert (Hrk := registers_app (bus s0)
    [(12, 0); (15, 0); (11, 7); (9, 0); (12, 1); (9, 255); (1, 15); (2, 15);
     (3, 15); (4, 15); (5, 15); (6, 15); (10, 5)]).
  assert (Hrs := registers_app (bus s0)
    [(12, 0); (11, 7); (9, 255); (10, 10); (12, 1); (9, 255); (1, 15); (2, 15);
     (3, 15); (4, 15); (5, 15); (6, 15)]).
  rewrite <- Hkit in Hrk. rewrite <- Hst in Hrs.
  cbn [foldl] in Hrk, Hrs. unfold write_register in Hrk, Hrs.
  cbn [fst snd] in Hrk, Hrs.
  unfold _SHUTDOWN, _SCAN_LIMIT, _DECODE_MODE, _INTENSITY, _DISPLAY_TEST.
  split; [reflexivity |]. split; [reflexivity |]. split.
  { intros s [-> | ->].
    - rewrite Hrk.
      split; [now simplify_map_eq |]. split; [now simplify_map_eq |].
      split; [now simplify_map_eq |]. split; [| now repeat split].
      intros i Hi. apply index_cases_6 in Hi.
      destruct Hi as [-> | [-> | [-> | [-> | [-> | ->]]]]]; now simplify_map_eq.
    - rewrite Hrs.
      split; [now simplify_map_eq |]. split; [now simplify_map_eq |].
      split; [now simplify_map_eq |]. split; [| now repeat split].
      intros i Hi. apply index_cases_6 in Hi.
      destruct Hi as [-> | [-> | [-> | [-> | [-> | ->]]]]]; now simplify_map_eq. }
  rewrite Hrk, Hrs.
  split; [now simplify_map_eq |]. split; [now simplify_map_eq |].
  split; [reflexivity |]. split; [cbn; apply lookup_delete_eq |].
  split; [now simplify_map_eq |]. split; reflexivity.
Qed.
